(** * reticulum-meshchat: the web bridge of [web.py]

    A shallow embedding of [ReticulumWebChat], its announce handler and the
    NomadNet downloaders, with the properties of the message ledger, the
    websocket fan-out and the network callbacks.

    Python values are embedded as follows.
    - [bytes] is a list of [Byte.byte]; a [str] is the Rocq [string] that
      holds its UTF-8 encoding, so that [decode("utf-8")] is a validity check.
    - a [float] is a binary64 primitive float.
    - code that can raise runs in a state and exception monad over [World],
      the part of the process state and of the outside world the code
      touches: a raised exception keeps the effects done before it.
    - a [dict] that is serialised with [json.dumps] is an association list in
      insertion order. *)

From Stdlib Require Import ZArith NArith List String Ascii Bool Lia.
From Stdlib.Strings Require Import Byte.
From Stdlib Require Import Floats Permutation Sorted.
Import ListNotations.

Set Warnings "-register-all,-inexact-float".

Local Open Scope string_scope.
Local Open Scope list_scope.
Local Open Scope Z_scope.

(* ===================================================================== *)
(** * Python built-ins used by the program                                *)
(* ===================================================================== *)

Module Py.

Definition bytes := list byte.

(** ** [a == b] on [bytes] *)

Fixpoint eqb (a b : bytes) : bool :=
  match a, b with
  | [], [] => true
  | x :: a', y :: b' => Byte.eqb x y && eqb a' b'
  | _, _ => false
  end.

(** ** [bytes.hex()] *)

Definition hex_digit (n : N) : ascii :=
  ascii_of_N (if (n <? 10)%N then 48 + n else 87 + n)%N.

Definition hex_byte (b : byte) : string :=
  let n := Byte.to_N b in
  String (hex_digit (n / 16)%N) (String (hex_digit (n mod 16)%N) EmptyString).

Fixpoint hex (bs : bytes) : string :=
  match bs with
  | [] => ""
  | b :: r => (hex_byte b ++ hex r)%string
  end.

(** ** [bytes.decode("utf-8")]

    The strict decoder: shortest form only, no surrogates, nothing above
    U+10FFFF.  The decoded [str] is represented by the very same bytes. *)

Definition between (lo hi : N) (b : byte) : bool :=
  let n := Byte.to_N b in ((lo <=? n) && (n <=? hi))%N.

Definition continuation : byte -> bool := between 128 191.

Fixpoint utf8_valid (bs : bytes) : bool :=
  match bs with
  | [] => true
  | b0 :: r0 =>
      if between 0 127 b0 then utf8_valid r0
      else if between 194 223 b0 then
        match r0 with
        | b1 :: r1 => continuation b1 && utf8_valid r1
        | _ => false
        end
      else if between 224 239 b0 then
        match r0 with
        | b1 :: b2 :: r2 =>
            (if between 224 224 b0 then between 160 191 b1
             else if between 237 237 b0 then between 128 159 b1
             else continuation b1)
            && continuation b2 && utf8_valid r2
        | _ => false
        end
      else if between 240 244 b0 then
        match r0 with
        | b1 :: b2 :: b3 :: r3 =>
            (if between 240 240 b0 then between 144 191 b1
             else if between 244 244 b0 then between 128 143 b1
             else continuation b1)
            && continuation b2 && continuation b3 && utf8_valid r3
        | _ => false
        end
      else false
  end.

Definition decode_utf8 (bs : bytes) : option string :=
  if utf8_valid bs then Some (string_of_list_byte bs) else None.

(** [str.encode("utf-8")] *)
Definition encode_utf8 (s : string) : bytes := list_byte_of_string s.

(** ** [base64.b64encode(b).decode("utf-8")] *)

Definition b64_char (n : N) : ascii :=
  ascii_of_N
    (if (n <? 26)%N then 65 + n
     else if (n <? 52)%N then 71 + n
     else if (n <? 62)%N then n - 4
     else if (n =? 62)%N then 43 else 47)%N.

Fixpoint b64encode (bs : bytes) : string :=
  match bs with
  | [] => ""
  | [a] =>
      let x := Byte.to_N a in
      String (b64_char (x / 4)) (String (b64_char ((x mod 4) * 16)) "==")
  | [a; b] =>
      let x := Byte.to_N a in
      let y := Byte.to_N b in
      String (b64_char (x / 4))
        (String (b64_char ((x mod 4) * 16 + y / 16))
           (String (b64_char ((y mod 16) * 4)) "="))
  | a :: b :: c :: r =>
      let x := Byte.to_N a in
      let y := Byte.to_N b in
      let z := Byte.to_N c in
      String (b64_char (x / 4))
        (String (b64_char ((x mod 4) * 16 + y / 16))
           (String (b64_char ((y mod 16) * 4 + z / 64))
              (String (b64_char (z mod 64)) (b64encode r))))
  end%N.

(** ** [round(x, 2)]

    CPython rounds the exact binary value of [x] to two decimals, ties to
    even, and returns the double nearest to that decimal ([double_round]:
    correctly rounded [dtoa] followed by correctly rounded [strtod]).
    Infinities, NaN and zeros are returned unchanged, and so is a finite
    value with no fractional bits. *)

(** nearest integer to [num / den], ties to even ([den > 0]) *)
Definition div_half_even (num den : Z) : Z :=
  let q := num / den in
  let r := num mod den in
  if 2 * r <? den then q
  else if den <? 2 * r then q + 1
  else if Z.even q then q else q + 1.

(** the number of hundredths nearest to [m * 2^e], for [e < 0] *)
Definition hundredths (m : positive) (e : Z) : Z :=
  div_half_even (100 * Z.pos m) (2 ^ (- e)).

(** the double nearest to [n / 100], with the sign [s] *)
Definition of_hundredths (s : bool) (n : Z) : float :=
  match n with
  | Z.pos p => SF2Prim (SF64div (S754_finite s p 0) (S754_finite false 100 0))
  | _ => SF2Prim (S754_zero s)
  end.

Definition round2 (x : float) : float :=
  match Prim2SF x with
  | S754_finite s m e =>
      if 0 <=? e then x else of_hundredths s (hundredths m e)
  | _ => x
  end.

End Py.

(* ===================================================================== *)
(** * Values and exceptions                                               *)
(* ===================================================================== *)

(** The Python values that travel through the program: what msgpack puts in
    the fields of a message, what a viewer sends, and the dictionaries that
    are handed to [json.dumps]. *)
Inductive PyVal : Type :=
| PyNone
| PyBool (b : bool)
| PyInt (n : Z)
| PyFloat (x : float)
| PyStr (s : string)
| PyBytes (b : Py.bytes)
| PyList (l : list PyVal)
| PyDict (d : list (string * PyVal)).

Inductive exn : Type :=
| TypeError
| IndexError
| KeyError
| ValueError
| UnicodeDecodeError
| AttributeError
| IntegrityError
| ConnectionResetError.

(** the name of the class of an exception, which the sample worlds take
    for its message *)
Definition class_name (e : exn) : string :=
  match e with
  | TypeError => "TypeError"
  | IndexError => "IndexError"
  | KeyError => "KeyError"
  | ValueError => "ValueError"
  | UnicodeDecodeError => "UnicodeDecodeError"
  | AttributeError => "AttributeError"
  | IntegrityError => "IntegrityError"
  | ConnectionResetError => "ConnectionResetError"
  end.

(** The result of an expression that may raise. *)
Inductive Outcome (A : Type) : Type :=
| Return (a : A)
| Raise (e : exn).
Arguments Return {A} a.
Arguments Raise {A} e.

Definition bindO {A B} (o : Outcome A) (k : A -> Outcome B) : Outcome B :=
  match o with
  | Return a => k a
  | Raise e => Raise e
  end.

Notation "'let+' x ':=' o 'in' k" := (bindO o (fun x => k))
  (at level 10, x name, o at level 100, k at level 200).

Fixpoint mapO {A B} (f : A -> Outcome B) (l : list A) : Outcome (list B) :=
  match l with
  | [] => Return []
  | a :: r =>
      let+ b := f a in
      let+ bs := mapO f r in
      Return (b :: bs)
  end.

(** ** Operations on values *)

(** first bytes of the characters of a [str]: a byte that is not a
    continuation byte starts a character *)
Fixpoint characters (bs : Py.bytes) (cur : Py.bytes) : list Py.bytes :=
  match bs with
  | [] => match cur with [] => [] | _ => [cur] end
  | b :: r =>
      if Py.continuation b then characters r (cur ++ [b])
      else match cur with
           | [] => characters r [b]
           | _ => cur :: characters r [b]
           end
  end.

(** the items a [for] loop sees *)
Definition iterate (v : PyVal) : Outcome (list PyVal) :=
  match v with
  | PyList l => Return l
  | PyBytes b => Return (map (fun x => PyInt (Z.of_N (Byte.to_N x))) b)
  | PyStr s =>
      Return (map (fun c => PyStr (string_of_list_byte c))
                  (characters (list_byte_of_string s) []))
  | PyDict d => Return (map (fun kv => PyStr (fst kv)) d)
  | _ => Raise TypeError
  end.

(** [v[i]] for a literal index [i] *)
Definition getitem (v : PyVal) (i : nat) : Outcome PyVal :=
  match v with
  | PyList _ | PyBytes _ | PyStr _ =>
      let+ items := iterate v in
      match nth_error items i with
      | Some x => Return x
      | None => Raise IndexError
      end
  | PyDict _ => Raise KeyError
  | _ => Raise TypeError
  end.

(** [base64.b64encode(v).decode("utf-8")] *)
Definition b64encode (v : PyVal) : Outcome string :=
  match v with
  | PyBytes b => Return (Py.b64encode b)
  | _ => Raise TypeError
  end.

(** [bytes.decode("utf-8")] *)
Definition decode (b : Py.bytes) : Outcome string :=
  match Py.decode_utf8 b with
  | Some s => Return s
  | None => Raise UnicodeDecodeError
  end.

(** [d[k] = v] on a dictionary *)
Fixpoint setitem (d : list (string * PyVal)) (k : string) (v : PyVal)
  : list (string * PyVal) :=
  match d with
  | [] => [(k, v)]
  | (k', v') :: r =>
      if String.eqb k' k then (k', v) :: r else (k', v') :: setitem r k v
  end.

(** [d.get(k)] / [k in d] on a dictionary *)
Fixpoint lookup {V : Type} (d : list (string * V)) (k : string) : option V :=
  match d with
  | [] => None
  | (k', v) :: r => if String.eqb k' k then Some v else lookup r k
  end.

(** [json.dumps] refuses [bytes]; every other value here has a JSON text.
    The text is represented by the value it encodes. *)
Fixpoint json_serializable (v : PyVal) : bool :=
  match v with
  | PyBytes _ => false
  | PyList l => forallb json_serializable l
  | PyDict d =>
      forallb (fun kv => match kv with (_, x) => json_serializable x end) d
  | _ => true
  end.

Definition json_dumps (v : PyVal) : Outcome PyVal :=
  if json_serializable v then Return v else Raise TypeError.

(* ===================================================================== *)
(** * The LXMF message as the router hands it over                        *)
(* ===================================================================== *)

Module LXMF.

Inductive State : Type :=
| DRAFT | OUTBOUND | SENDING | SENT | DELIVERED | FAILED
| OTHER (code : Z).

Inductive FieldType : Type :=
| FIELD_FILE_ATTACHMENTS
| FIELD_IMAGE
| FIELD_OTHER (code : Z).

Record LXMessage : Type := {
  hash : Py.bytes;
  source_hash : Py.bytes;
  destination_hash : Py.bytes;
  incoming : bool;
  state : State;
  progress : float;
  title : Py.bytes;
  content : Py.bytes;
  fields : list (FieldType * PyVal);
  timestamp : float
}.

Definition get_fields (m : LXMessage) : list (FieldType * PyVal) := fields m.

End LXMF.

(* ===================================================================== *)
(** * Wire shape of a message                                             *)
(* ===================================================================== *)

(** the dictionary built by [convert_lxmf_message_to_dict] *)
Record MessageDict : Type := {
  d_hash : string;
  d_source_hash : string;
  d_destination_hash : string;
  d_is_incoming : bool;
  d_state : string;
  d_progress : float;
  d_title : string;
  d_content : string;
  d_fields : PyVal;
  d_timestamp : float
}.

Definition message_dict_value (d : MessageDict) : PyVal :=
  PyDict [("hash", PyStr (d_hash d));
          ("source_hash", PyStr (d_source_hash d));
          ("destination_hash", PyStr (d_destination_hash d));
          ("is_incoming", PyBool (d_is_incoming d));
          ("state", PyStr (d_state d));
          ("progress", PyFloat (d_progress d));
          ("title", PyStr (d_title d));
          ("content", PyStr (d_content d));
          ("fields", d_fields d);
          ("timestamp", PyFloat (d_timestamp d))].

Definition convert_lxmf_state_to_string (lxmf_message : LXMF.LXMessage)
  : string :=
  match LXMF.state lxmf_message with
  | LXMF.DRAFT => "draft"
  | LXMF.OUTBOUND => "outbound"
  | LXMF.SENDING => "sending"
  | LXMF.SENT => "sent"
  | LXMF.DELIVERED => "delivered"
  | LXMF.FAILED => "failed"
  | LXMF.OTHER _ => "unknown"
  end.

Definition convert_file_attachment (file_attachment : PyVal)
  : Outcome PyVal :=
  let+ file_name := getitem file_attachment 0 in
  let+ raw := getitem file_attachment 1 in
  let+ file_bytes := b64encode raw in
  Return (PyDict [("file_name", file_name); ("file_bytes", PyStr file_bytes)]).

(** one turn of the loop over the fields of the message *)
Definition convert_field (fields : list (string * PyVal))
  (field_type : LXMF.FieldType) (value : PyVal)
  : Outcome (list (string * PyVal)) :=
  let+ fields :=
    match field_type with
    | LXMF.FIELD_FILE_ATTACHMENTS =>
        let+ items := iterate value in
        let+ file_attachments := mapO convert_file_attachment items in
        Return (setitem fields "file_attachments" (PyList file_attachments))
    | _ => Return fields
    end in
  match field_type with
  | LXMF.FIELD_IMAGE =>
      let+ image_type := getitem value 0 in
      let+ raw := getitem value 1 in
      let+ image_bytes := b64encode raw in
      Return (setitem fields "image"
                (PyDict [("image_type", image_type);
                         ("image_bytes", PyStr image_bytes)]))
  | _ => Return fields
  end.

Fixpoint convert_fields (fields : list (string * PyVal))
  (message_fields : list (LXMF.FieldType * PyVal))
  : Outcome (list (string * PyVal)) :=
  match message_fields with
  | [] => Return fields
  | (field_type, value) :: rest =>
      let+ fields := convert_field fields field_type value in
      convert_fields fields rest
  end.

Definition convert_lxmf_message_to_dict (lxmf_message : LXMF.LXMessage)
  : Outcome MessageDict :=
  let+ fields := convert_fields [] (LXMF.get_fields lxmf_message) in
  let progress_percentage :=
    Py.round2 (LXMF.progress lxmf_message * 100)%float in
  let+ title := decode (LXMF.title lxmf_message) in
  let+ content := decode (LXMF.content lxmf_message) in
  Return {| d_hash := Py.hex (LXMF.hash lxmf_message);
            d_source_hash := Py.hex (LXMF.source_hash lxmf_message);
            d_destination_hash := Py.hex (LXMF.destination_hash lxmf_message);
            d_is_incoming := LXMF.incoming lxmf_message;
            d_state := convert_lxmf_state_to_string lxmf_message;
            d_progress := progress_percentage;
            d_title := title;
            d_content := content;
            d_fields := PyDict fields;
            d_timestamp := LXMF.timestamp lxmf_message |}.

(** [convert_app_data_to_string]: the label of an announce, or [None] when
    there is none or it is not UTF-8 *)
Definition convert_app_data_to_string (app_data : option Py.bytes)
  : option string :=
  match app_data with
  | Some b =>
      match decode b with
      | Return s => Some s
      | Raise _ => None
      end
  | None => None
  end.

(* ===================================================================== *)
(** * The message ledger                                                  *)
(* ===================================================================== *)

Module database.

(** a naive [datetime], as [datetime.now()] returns it *)
Record datetime : Type := {
  year : Z; month : Z; day : Z;
  hour : Z; minute : Z; second : Z; microsecond : Z
}.

(** the last [n] decimal digits of [z], zero padded *)
Fixpoint digits (n : nat) (z : Z) : string :=
  match n with
  | O => ""
  | S n' =>
      (digits n' (z / 10)
       ++ String (ascii_of_N (48 + Z.to_N (z mod 10))) "")%string
  end.

(** [t.replace(tzinfo=timezone.utc).isoformat()] *)
Definition isoformat_utc (t : datetime) : string :=
  (digits 4 (year t) ++ "-" ++ digits 2 (month t) ++ "-" ++ digits 2 (day t)
   ++ "T" ++ digits 2 (hour t) ++ ":" ++ digits 2 (minute t)
   ++ ":" ++ digits 2 (second t)
   ++ (if Z.eqb (microsecond t) 0 then "" else "." ++ digits 6 (microsecond t))
   ++ "+00:00")%string.

(** Modelled from the spec: the table [LxmfMessage] of [database.py], which
    is not among the sources.  "Persisted record schema: hash(unique),
    source_hash, destination_hash, is_incoming(bool), state(string enum),
    progress(float), title(text), content(text), fields(serialized blob),
    timestamp(protocol time), created_at, updated_at", with the integer
    primary key [id] that the program reads and orders by.  The serialized
    blob is represented by the value that [json.dumps] was given. *)
Record LxmfMessage : Type := {
  id : Z;
  hash : string;
  source_hash : string;
  destination_hash : string;
  is_incoming : bool;
  state : string;
  progress : float;
  title : string;
  content : string;
  fields : PyVal;
  timestamp : float;
  created_at : datetime;
  updated_at : datetime
}.

(** the columns that the program supplies, in [LxmfMessage(...)] and in the
    [data] of the upsert *)
Record Values : Type := {
  v_hash : string;
  v_source_hash : string;
  v_destination_hash : string;
  v_is_incoming : bool;
  v_state : string;
  v_progress : float;
  v_title : string;
  v_content : string;
  v_fields : PyVal;
  v_timestamp : float
}.

Definition Table := list LxmfMessage.

Definition has_hash (h : string) (row : LxmfMessage) : bool :=
  String.eqb (hash row) h.

(** the integer primary key of a new row: one more than the largest *)
Definition next_id (t : Table) : Z := 1 + fold_right Z.max 0 (map id t).

(** Modelled from the spec: [created_at] and [updated_at] that are not
    supplied default to the time of the insertion. *)
Definition new_row (now : datetime) (v : Values) (updated : option datetime)
  (t : Table) : LxmfMessage :=
  {| id := next_id t;
     hash := v_hash v;
     source_hash := v_source_hash v;
     destination_hash := v_destination_hash v;
     is_incoming := v_is_incoming v;
     state := v_state v;
     progress := v_progress v;
     title := v_title v;
     content := v_content v;
     fields := v_fields v;
     timestamp := v_timestamp v;
     created_at := now;
     updated_at := match updated with Some u => u | None => now end |}.

(** [SET] every supplied column; [id] and [created_at] stay *)
Definition update_row (v : Values) (updated : datetime) (row : LxmfMessage)
  : LxmfMessage :=
  {| id := id row;
     hash := v_hash v;
     source_hash := v_source_hash v;
     destination_hash := v_destination_hash v;
     is_incoming := v_is_incoming v;
     state := v_state v;
     progress := v_progress v;
     title := v_title v;
     content := v_content v;
     fields := v_fields v;
     timestamp := v_timestamp v;
     created_at := created_at row;
     updated_at := updated |}.

(** [Model.save()] of a new instance: a plain [INSERT].
    Modelled from the spec: the column [hash] is unique, so the statement is
    refused when the hash is taken. *)
Definition insert (now : datetime) (v : Values) (t : Table) : Outcome Table :=
  if existsb (has_hash (v_hash v)) t then Raise IntegrityError
  else Return (t ++ [new_row now v None t]).

(** [insert(data).on_conflict(conflict_target=[hash], update=data)] *)
Definition upsert (now : datetime) (v : Values) (updated : datetime)
  (t : Table) : Table :=
  if existsb (has_hash (v_hash v)) t
  then map (fun row => if has_hash (v_hash v) row
                       then update_row v updated row else row) t
  else t ++ [new_row now v (Some updated) t].

(** [(source_hash == s) & (destination_hash == d)], [orwhere] the two
    exchanged *)
Definition between (s d : string) (row : LxmfMessage) : bool :=
  (String.eqb (source_hash row) s && String.eqb (destination_hash row) d)
  || (String.eqb (destination_hash row) s && String.eqb (source_hash row) d).

(** [order_by(id.asc())] *)
Fixpoint place (row : LxmfMessage) (sorted : list LxmfMessage)
  : list LxmfMessage :=
  match sorted with
  | [] => [row]
  | r :: rest =>
      if id row <? id r then row :: r :: rest else r :: place row rest
  end.

Definition order_by_id (rows : list LxmfMessage) : list LxmfMessage :=
  fold_right place [] rows.

Definition select_between (s d : string) (t : Table) : list LxmfMessage :=
  order_by_id (filter (between s d) t).

(** the statements that reach the database *)
Inductive Statement : Type :=
| INSERT (h : string)
| UPSERT (h : string)
| SELECT (s d : string).

End database.

(* ===================================================================== *)
(** * The world of the program                                            *)
(* ===================================================================== *)

(** a viewer session: the identity of one [web.WebSocketResponse] *)
Definition Session := nat.

Module RNS.

(** an [RNS.Identity] that was recalled or announced *)
Record Identity : Type := { get_public_key : Py.bytes }.

(** [RNS.prettyhexrep] *)
Definition prettyhexrep (h : Py.bytes) : string :=
  ("<" ++ Py.hex h ++ ">")%string.

(** an entry of [RNS.Identity.known_destinations] *)
Record KnownDestination : Type := {
  last_announce : float;
  public_key : Py.bytes;
  app_data : option Py.bytes
}.

(** calls into the network stack that only have an effect there *)
Inductive Call : Type :=
| log (msg : string)
| request_path (destination_hash : Py.bytes)
| Link (public_key : Py.bytes) (app_name aspects : string)
| request (path : PyVal) (timeout : option Z)
| announce (app_data : Py.bytes)
| handle_outbound (m : LXMF.LXMessage).

End RNS.

Record World : Type := {
  (** [self.display_name]: a [str], until a viewer sets something else *)
  display_name : PyVal;
  (** [self.identity.hexhash] and [self.local_lxmf_destination.hash] *)
  identity_hexhash : string;
  lxmf_address_hash : Py.bytes;
  (** the content of [config.json], and whether it can be written *)
  config_file : PyVal;
  config_file_writable : bool;
  (** [self.websocket_clients], in registration order *)
  websocket_clients : list Session;
  (** the sessions whose transport refuses a write *)
  closing : list Session;
  (** every frame written to a session, oldest first *)
  wire : list (Session * PyVal);
  (** the ledger and the statements it has executed *)
  db : database.Table;
  statements : list database.Statement;
  (** [RNS.Identity.known_destinations], in insertion order *)
  known_destinations : list (Py.bytes * RNS.KnownDestination);
  (** the calls made into the network stack, oldest first *)
  network : list RNS.Call;
  (** the clocks: [datetime.now()] and [time.time()] *)
  datetime_now : database.datetime;
  time_time : float;
  (** [str(e)]: the message that the libraries give to an exception, which
      is what the program prints of it *)
  str : exn -> string;
  (** the lines printed *)
  stdout : list string
}.

Definition set_display_name (x : PyVal) (w : World) : World :=
  {| display_name := x; identity_hexhash := identity_hexhash w;
     lxmf_address_hash := lxmf_address_hash w; config_file := config_file w;
     config_file_writable := config_file_writable w;
     websocket_clients := websocket_clients w; closing := closing w;
     wire := wire w; db := db w; statements := statements w;
     known_destinations := known_destinations w; network := network w;
     datetime_now := datetime_now w; time_time := time_time w; str := str w;
     stdout := stdout w |}.

Definition set_config_file (x : PyVal) (w : World) : World :=
  {| display_name := display_name w; identity_hexhash := identity_hexhash w;
     lxmf_address_hash := lxmf_address_hash w; config_file := x;
     config_file_writable := config_file_writable w;
     websocket_clients := websocket_clients w; closing := closing w;
     wire := wire w; db := db w; statements := statements w;
     known_destinations := known_destinations w; network := network w;
     datetime_now := datetime_now w; time_time := time_time w; str := str w;
     stdout := stdout w |}.

Definition set_websocket_clients (x : list Session) (w : World) : World :=
  {| display_name := display_name w; identity_hexhash := identity_hexhash w;
     lxmf_address_hash := lxmf_address_hash w; config_file := config_file w;
     config_file_writable := config_file_writable w; websocket_clients := x;
     closing := closing w; wire := wire w; db := db w;
     statements := statements w; known_destinations := known_destinations w;
     network := network w; datetime_now := datetime_now w;
     time_time := time_time w; str := str w; stdout := stdout w |}.

Definition set_wire (x : list (Session * PyVal)) (w : World) : World :=
  {| display_name := display_name w; identity_hexhash := identity_hexhash w;
     lxmf_address_hash := lxmf_address_hash w; config_file := config_file w;
     config_file_writable := config_file_writable w;
     websocket_clients := websocket_clients w; closing := closing w;
     wire := x; db := db w; statements := statements w;
     known_destinations := known_destinations w; network := network w;
     datetime_now := datetime_now w; time_time := time_time w; str := str w;
     stdout := stdout w |}.

(** the table after a statement, which is recorded *)
Definition set_db (x : database.Table) (s : database.Statement) (w : World)
  : World :=
  {| display_name := display_name w; identity_hexhash := identity_hexhash w;
     lxmf_address_hash := lxmf_address_hash w; config_file := config_file w;
     config_file_writable := config_file_writable w;
     websocket_clients := websocket_clients w; closing := closing w;
     wire := wire w; db := x; statements := statements w ++ [s];
     known_destinations := known_destinations w; network := network w;
     datetime_now := datetime_now w; time_time := time_time w; str := str w;
     stdout := stdout w |}.

Definition set_network (x : list RNS.Call) (w : World) : World :=
  {| display_name := display_name w; identity_hexhash := identity_hexhash w;
     lxmf_address_hash := lxmf_address_hash w; config_file := config_file w;
     config_file_writable := config_file_writable w;
     websocket_clients := websocket_clients w; closing := closing w;
     wire := wire w; db := db w; statements := statements w;
     known_destinations := known_destinations w; network := x;
     datetime_now := datetime_now w; time_time := time_time w; str := str w;
     stdout := stdout w |}.

Definition set_stdout (x : list string) (w : World) : World :=
  {| display_name := display_name w; identity_hexhash := identity_hexhash w;
     lxmf_address_hash := lxmf_address_hash w; config_file := config_file w;
     config_file_writable := config_file_writable w;
     websocket_clients := websocket_clients w; closing := closing w;
     wire := wire w; db := db w; statements := statements w;
     known_destinations := known_destinations w; network := network w;
     datetime_now := datetime_now w; time_time := time_time w; str := str w;
     stdout := x |}.

(** the clocks move on their own *)
Definition set_clock (d : database.datetime) (t : float) (w : World) : World :=
  {| display_name := display_name w; identity_hexhash := identity_hexhash w;
     lxmf_address_hash := lxmf_address_hash w; config_file := config_file w;
     config_file_writable := config_file_writable w;
     websocket_clients := websocket_clients w; closing := closing w;
     wire := wire w; db := db w; statements := statements w;
     known_destinations := known_destinations w; network := network w;
     datetime_now := d; time_time := t; str := str w; stdout := stdout w |}.

(** ** Statements that may raise and change the world *)

Definition M (A : Type) : Type := World -> Outcome A * World.

Definition ret {A} (a : A) : M A := fun w => (Return a, w).

Definition raise {A} (e : exn) : M A := fun w => (Raise e, w).

Definition bind {A B} (m : M A) (k : A -> M B) : M B :=
  fun w =>
    match m w with
    | (Return a, w') => k a w'
    | (Raise e, w') => (Raise e, w')
    end.

(** [try: m  except: handler] *)
Definition try_except {A} (m : M A) (handler : exn -> M A) : M A :=
  fun w =>
    match m w with
    | (Return a, w') => (Return a, w')
    | (Raise e, w') => handler e w'
    end.

Definition lift {A} (o : Outcome A) : M A := fun w => (o, w).

Definition gets {A} (f : World -> A) : M A := fun w => (Return (f w), w).

Definition modify (f : World -> World) : M unit := fun w => (Return tt, f w).

Notation "'let*' x ':=' m 'in' k" := (bind m (fun x => k))
  (at level 10, x name, m at level 100, k at level 200).
Notation "m ';;' k" := (bind m (fun _ => k))
  (at level 61, right associativity).

Definition print (line : string) : M unit :=
  modify (fun w => set_stdout (stdout w ++ [line]) w).

Definition call (c : RNS.Call) : M unit :=
  modify (fun w => set_network (network w ++ [c]) w).

Fixpoint for_each {A} (l : list A) (body : A -> M unit) : M unit :=
  match l with
  | [] => ret tt
  | a :: r => body a ;; for_each r body
  end.

(** [RNS.Identity.recall] and [RNS.Identity.recall_app_data] *)
Fixpoint known (l : list (Py.bytes * RNS.KnownDestination)) (h : Py.bytes)
  : option RNS.KnownDestination :=
  match l with
  | [] => None
  | (h', k) :: r =>
      if Py.eqb h' h then Some k else known r h
  end.

Definition recall (destination_hash : Py.bytes) : M (option RNS.Identity) :=
  gets (fun w =>
          match known (known_destinations w) destination_hash with
          | Some k => Some {| RNS.get_public_key := RNS.public_key k |}
          | None => None
          end).

(* ===================================================================== *)
(** * ReticulumWebChat                                                    *)
(* ===================================================================== *)

(** ** The fan-out to the viewers *)

(** [await websocket_client.send_str(data)]: the frame is written, unless
    the transport is closing *)
Definition send_str (websocket_client : Session) (data : PyVal) : M unit :=
  fun w =>
    if existsb (Nat.eqb websocket_client) (closing w)
    then (Raise ConnectionResetError, w)
    else (Return tt, set_wire (wire w ++ [(websocket_client, data)]) w).

Definition websocket_broadcast (data : PyVal) : M unit :=
  let* clients := gets websocket_clients in
  for_each clients (fun websocket_client => send_str websocket_client data).

Definition config_event (w : World) : PyVal :=
  PyDict [("type", PyStr "config");
          ("config",
           PyDict [("display_name", display_name w);
                   ("identity_hash", PyStr (identity_hexhash w));
                   ("lxmf_address_hash", PyStr (Py.hex (lxmf_address_hash w)))])].

Definition send_config_to_websocket_clients : M unit :=
  let* event := gets config_event in
  let* data := lift (json_dumps event) in
  websocket_broadcast data.

Definition optional_str (s : option string) : PyVal :=
  match s with
  | Some s => PyStr s
  | None => PyNone
  end.

Definition known_peer (entry : Py.bytes * RNS.KnownDestination) : PyVal :=
  let (destination_hash, known_destination) := entry in
  PyDict [("destination_hash", PyStr (Py.hex destination_hash));
          ("app_data",
           optional_str
             (convert_app_data_to_string (RNS.app_data known_destination)));
          ("last_announce_timestamp",
           PyFloat (RNS.last_announce known_destination))].

Definition known_peers_event (w : World) : PyVal :=
  PyDict [("type", PyStr "known_peers");
          ("known_peers", PyList (map known_peer (known_destinations w)))].

Definition send_known_peers_to_websocket_clients : M unit :=
  let* event := gets known_peers_event in
  let* data := lift (json_dumps event) in
  websocket_broadcast data.

(** ** The ledger as the program drives it *)

Definition values (d : MessageDict) (fields : PyVal) : database.Values :=
  {| database.v_hash := d_hash d;
     database.v_source_hash := d_source_hash d;
     database.v_destination_hash := d_destination_hash d;
     database.v_is_incoming := d_is_incoming d;
     database.v_state := d_state d;
     database.v_progress := d_progress d;
     database.v_title := d_title d;
     database.v_content := d_content d;
     database.v_fields := fields;
     database.v_timestamp := d_timestamp d |}.

(** [lxmf_message_db.save()] *)
Definition save (v : database.Values) : M unit :=
  fun w =>
    let s := database.INSERT (database.v_hash v) in
    match database.insert (datetime_now w) v (db w) with
    | Return t => (Return tt, set_db t s w)
    | Raise e => (Raise e, set_db (db w) s w)
    end.

(** [query.execute()] of the upsert *)
Definition execute_upsert (v : database.Values) (updated : database.datetime)
  : M unit :=
  modify (fun w =>
            set_db (database.upsert (datetime_now w) v updated (db w))
                   (database.UPSERT (database.v_hash v)) w).

Definition db_upsert_lxmf_message (lxmf_message : LXMF.LXMessage) : M unit :=
  let* lxmf_message_dict := lift (convert_lxmf_message_to_dict lxmf_message) in
  let* fields := lift (json_dumps (d_fields lxmf_message_dict)) in
  let* updated_at := gets datetime_now in
  execute_upsert (values lxmf_message_dict fields) updated_at.

(** ** The callbacks of the network layer *)

Definition message_event (type : string) (d : MessageDict) : PyVal :=
  PyDict [("type", PyStr type); ("lxmf_message", message_dict_value d)].

Definition on_lxmf_delivery (message : LXMF.LXMessage) : M unit :=
  try_except
    (let* lxmf_message_dict := lift (convert_lxmf_message_to_dict message) in
     let* fields := lift (json_dumps (d_fields lxmf_message_dict)) in
     save (values lxmf_message_dict fields) ;;
     let* again := lift (convert_lxmf_message_to_dict message) in
     let* data := lift (json_dumps (message_event "lxmf.delivery" again)) in
     websocket_broadcast data)
    (fun e =>
       let* message := gets (fun w => str w e) in
       print ("lxmf_delivery error: " ++ message)%string).

Definition on_lxmf_sending_state_updated (lxmf_message : LXMF.LXMessage)
  : M unit :=
  db_upsert_lxmf_message lxmf_message ;;
  let* d := lift (convert_lxmf_message_to_dict lxmf_message) in
  let* data := lift (json_dumps (message_event "lxmf_message_state_updated" d)) in
  websocket_broadcast data.

Definition on_lxmf_sending_failed (lxmf_message : LXMF.LXMessage) : M unit :=
  on_lxmf_sending_state_updated lxmf_message.

Definition announce_event (destination_hash : Py.bytes)
  (parsed_app_data : option string) (now : float) : PyVal :=
  PyDict [("type", PyStr "announce");
          ("announce",
           PyDict [("destination_hash", PyStr (Py.hex destination_hash));
                   ("app_data", optional_str parsed_app_data);
                   ("last_announce_timestamp", PyFloat now)])].

Definition on_lxmf_announce_received (destination_hash : Py.bytes)
  (announced_identity : RNS.Identity) (app_data : option Py.bytes) : M unit :=
  call (RNS.log ("Received an announce from "
                 ++ RNS.prettyhexrep destination_hash)%string) ;;
  let* parsed_app_data :=
    match app_data with
    | Some b => let* s := lift (decode b) in ret (Some s)
    | None => ret None
    end in
  let* now := gets time_time in
  let* data :=
    lift (json_dumps (announce_event destination_hash parsed_app_data now)) in
  websocket_broadcast data.

(** ** LXMFAnnounceHandler *)

Module LXMFAnnounceHandler.

Definition aspect_filter : string := "lxmf.delivery".

Definition received_announce
  (received_announce_callback :
     Py.bytes -> RNS.Identity -> option Py.bytes -> M unit)
  (destination_hash : Py.bytes) (announced_identity : RNS.Identity)
  (app_data : option Py.bytes) : M unit :=
  try_except
    (received_announce_callback destination_hash announced_identity app_data)
    (fun _ => ret tt).

End LXMFAnnounceHandler.

(** the handler that [__init__] registers with [RNS.Transport] *)
Definition announce_handler :
  Py.bytes -> RNS.Identity -> option Py.bytes -> M unit :=
  LXMFAnnounceHandler.received_announce on_lxmf_announce_received.

(* ===================================================================== *)
(** * NomadNet downloads                                                  *)
(* ===================================================================== *)

Module NomadnetDownloader.

Record t : Type := {
  app_name : string;
  aspects : string;
  destination_hash : Py.bytes;
  path : PyVal;
  timeout : option Z;
  on_download_success : PyVal -> M unit;
  on_download_failure : string -> M unit;
  on_progress_update : float -> M unit
}.

(** set up the link to the destination and request the download *)
Definition download (self : t) : M unit :=
  call (RNS.request_path (destination_hash self)) ;;
  let* identity := recall (destination_hash self) in
  match identity with
  | None => on_download_failure self "identity not found"
  | Some identity =>
      call (RNS.Link (RNS.get_public_key identity)
                     (app_name self) (aspects self))
  end.

Definition link_established (self : t) : M unit :=
  call (RNS.request (path self) (timeout self)).

Definition on_response (self : t) (response : PyVal) : M unit :=
  print "file_received" ;;
  on_download_success self response.

Definition on_failed (self : t) : M unit :=
  on_download_failure self "request_failed".

Definition on_progress (self : t) (progress : float) : M unit :=
  on_progress_update self progress.

Definition init (destination_hash : Py.bytes) (path : PyVal)
  (on_download_success : PyVal -> M unit)
  (on_download_failure : string -> M unit)
  (on_progress_update : float -> M unit)
  (timeout : option Z) (auto_download : bool) : M t :=
  let self :=
    {| app_name := "nomadnetwork"; aspects := "node";
       destination_hash := destination_hash; path := path;
       timeout := timeout;
       on_download_success := on_download_success;
       on_download_failure := on_download_failure;
       on_progress_update := on_progress_update |} in
  (if auto_download then download self else ret tt) ;;
  ret self.

End NomadnetDownloader.

Module NomadnetPageDownloader.

Definition on_download_success (on_page_download_success : string -> M unit)
  (response_bytes : PyVal) : M unit :=
  match response_bytes with
  | PyBytes b =>
      let* micron_markup_response := lift (decode b) in
      on_page_download_success micron_markup_response
  | _ => raise AttributeError
  end.

Definition on_download_failure (on_page_download_failure : string -> M unit)
  (failure_reason : string) : M unit :=
  on_page_download_failure failure_reason.

Definition init (destination_hash : Py.bytes) (page_path : PyVal)
  (on_page_download_success : string -> M unit)
  (on_page_download_failure : string -> M unit)
  (on_progress_update : float -> M unit)
  (timeout : option Z) (auto_download : bool) : M NomadnetDownloader.t :=
  NomadnetDownloader.init destination_hash page_path
    (on_download_success on_page_download_success)
    (on_download_failure on_page_download_failure)
    on_progress_update timeout auto_download.

End NomadnetPageDownloader.

Module NomadnetFileDownloader.

Definition on_download_success
  (on_file_download_success : PyVal -> PyVal -> M unit)
  (response : PyVal) : M unit :=
  let* file_name := lift (getitem response 0) in
  let* file_data := lift (getitem response 1) in
  on_file_download_success file_name file_data.

Definition on_download_failure (on_file_download_failure : string -> M unit)
  (failure_reason : string) : M unit :=
  on_file_download_failure failure_reason.

Definition init (destination_hash : Py.bytes) (page_path : PyVal)
  (on_file_download_success : PyVal -> PyVal -> M unit)
  (on_file_download_failure : string -> M unit)
  (on_progress_update : float -> M unit)
  (timeout : option Z) (auto_download : bool) : M NomadnetDownloader.t :=
  NomadnetDownloader.init destination_hash page_path
    (on_download_success on_file_download_success)
    (on_download_failure on_file_download_failure)
    on_progress_update timeout auto_download.

End NomadnetFileDownloader.

(* ===================================================================== *)
(** * The HTTP query over the ledger                                      *)
(* ===================================================================== *)

Record Response : Type := { status : Z; body : PyVal }.

(** [web.json_response(data, status=...)] *)
Definition json_response (data : PyVal) (status : Z) : Response :=
  {| status := status; body := data |}.

Definition lxmf_message_json (db_lxmf_message : database.LxmfMessage) : PyVal :=
  PyDict
    [("id", PyInt (database.id db_lxmf_message));
     ("hash", PyStr (database.hash db_lxmf_message));
     ("source_hash", PyStr (database.source_hash db_lxmf_message));
     ("destination_hash", PyStr (database.destination_hash db_lxmf_message));
     ("is_incoming", PyBool (database.is_incoming db_lxmf_message));
     ("state", PyStr (database.state db_lxmf_message));
     ("progress", PyFloat (database.progress db_lxmf_message));
     ("title", PyStr (database.title db_lxmf_message));
     ("content", PyStr (database.content db_lxmf_message));
     ("fields", database.fields db_lxmf_message);
     ("timestamp", PyFloat (database.timestamp db_lxmf_message));
     ("created_at",
      PyStr (database.isoformat_utc (database.created_at db_lxmf_message)));
     ("updated_at",
      PyStr (database.isoformat_utc (database.updated_at db_lxmf_message)))].

(** running the [select] of the route *)
Definition select_lxmf_messages (source_hash destination_hash : string)
  : M (list database.LxmfMessage) :=
  fun w =>
    (Return (database.select_between source_hash destination_hash (db w)),
     set_db (db w) (database.SELECT source_hash destination_hash) w).

(** [GET /api/v1/lxmf-messages]; [query] is [request.query], whose [get]
    returns the first value of a key *)
Definition api_v1_lxmf_messages (query : list (string * string)) : M Response :=
  match lookup query "source_hash" with
  | None =>
      ret (json_response
             (PyDict [("message", PyStr "source_hash is required")]) 422)
  | Some source_hash =>
      match lookup query "destination_hash" with
      | None =>
          ret (json_response
                 (PyDict [("message", PyStr "destination_hash is required")])
                 422)
      | Some destination_hash =>
          let* db_lxmf_messages :=
            select_lxmf_messages source_hash destination_hash in
          ret (json_response
                 (PyDict [("lxmf_messages",
                           PyList (map lxmf_message_json db_lxmf_messages))])
                 200)
      end
  end.

(* ===================================================================== *)
(** * The viewer sessions                                                 *)
(* ===================================================================== *)

(** ** Reading what a viewer sent *)

(** [v[k]] for a literal string key *)
Definition subscript (v : PyVal) (k : string) : Outcome PyVal :=
  match v with
  | PyDict d =>
      match lookup d k with
      | Some x => Return x
      | None => Raise KeyError
      end
  | _ => Raise TypeError
  end.

Fixpoint substring_of (k s : string) : bool :=
  String.prefix k s
  || match s with
     | EmptyString => false
     | String _ r => substring_of k r
     end.

(** [k in v] for a literal string [k] *)
Definition contains (v : PyVal) (k : string) : Outcome bool :=
  match v with
  | PyDict d => Return (match lookup d k with Some _ => true | None => false end)
  | PyList l =>
      Return (existsb (fun x => match x with
                                | PyStr s => String.eqb s k
                                | _ => false
                                end) l)
  | PyStr s => Return (substring_of k s)
  | _ => Raise TypeError
  end.

(** [v != ""] *)
Definition not_empty_str (v : PyVal) : bool :=
  match v with
  | PyStr EmptyString => false
  | _ => true
  end.

(** [prefix + v] for a literal [prefix] *)
Definition concat (prefix : string) (v : PyVal) : Outcome string :=
  match v with
  | PyStr s => Return (prefix ++ s)%string
  | _ => Raise TypeError
  end.

Definition hex_value (c : ascii) : option N :=
  let n := N_of_ascii c in
  if ((48 <=? n) && (n <=? 57))%N then Some (n - 48)%N
  else if ((97 <=? n) && (n <=? 102))%N then Some (n - 87)%N
  else if ((65 <=? n) && (n <=? 70))%N then Some (n - 55)%N
  else None.

Definition is_space (c : ascii) : bool :=
  let n := N_of_ascii c in
  ((n =? 32) || ((9 <=? n) && (n <=? 13)))%N.

Fixpoint fromhex_chars (s : string) : Outcome Py.bytes :=
  match s with
  | EmptyString => Return []
  | String c r =>
      if is_space c then fromhex_chars r
      else
        match r with
        | String c' r' =>
            match hex_value c, hex_value c' with
            | Some hi, Some lo =>
                match Byte.of_N (16 * hi + lo) with
                | Some b => let+ rest := fromhex_chars r' in Return (b :: rest)
                | None => Raise ValueError
                end
            | _, _ => Raise ValueError
            end
        | EmptyString => Raise ValueError
        end
  end.

(** [bytes.fromhex(v)] *)
Definition fromhex (v : PyVal) : Outcome Py.bytes :=
  match v with
  | PyStr s => fromhex_chars s
  | _ => Raise TypeError
  end.

(** ** Registration, input and removal *)

(** a frame that the websocket yields; a text frame is given with what
    [json.loads] makes of its data *)
Inductive WSMessage : Type :=
| TEXT (data : Outcome PyVal)
| ERROR
| OTHER.

(** [self.websocket_clients.remove(c)] *)
Fixpoint remove_first (c : Session) (l : list Session) : list Session :=
  match l with
  | [] => []
  | x :: r => if Nat.eqb x c then r else x :: remove_first c r
  end.

Definition remove (c : Session) : M unit :=
  fun w =>
    if existsb (Nat.eqb c) (websocket_clients w)
    then (Return tt,
          set_websocket_clients (remove_first c (websocket_clients w)) w)
    else (Raise ValueError, w).

Definition save_config : M unit :=
  fun w =>
    let config := PyDict [("display_name", display_name w)] in
    if config_file_writable w && json_serializable config
    then (Return tt, set_config_file config w)
    else print "failed to save config" w.

Section Viewer.

(** [asyncio.run(client.send(data))], as the transport library has it *)
Variable client_send : Session -> PyVal -> M unit.

(** the message that [LXMF.LXMessage(destination, source, content)] builds
    and [handle_outbound] packs, given the local address, the recipient, the
    content and the time; or what they raise *)
Variable outbound :
  Py.bytes -> RNS.Identity -> PyVal -> float -> Outcome LXMF.LXMessage.

Definition send_message (destination_hash message_content : PyVal) : M unit :=
  try_except
    (let* destination_hash := lift (fromhex destination_hash) in
     let* destination_identity := recall destination_hash in
     match destination_identity with
     | None => call (RNS.request_path destination_hash)
     | Some destination_identity =>
         let* source := gets lxmf_address_hash in
         let* now := gets time_time in
         let* lxmf_message :=
           lift (outbound source destination_identity message_content now) in
         call (RNS.handle_outbound lxmf_message) ;;
         db_upsert_lxmf_message lxmf_message ;;
         let* d := lift (convert_lxmf_message_to_dict lxmf_message) in
         let* data :=
           lift (json_dumps (message_event "lxmf_outbound_message_created" d)) in
         websocket_broadcast data
     end)
    (fun _ => print "failed to send lxmf message").

(** [asyncio.run(client.send(json.dumps(event)))] *)
Definition send_download_event (client : Session) (event : PyVal) : M unit :=
  let* data := lift (json_dumps event) in
  client_send client data.

Definition nomadnet_file_download (client : Session) (data : PyVal) : M unit :=
  let* request := lift (subscript data "nomadnet_file_download") in
  let* destination_hash := lift (subscript request "destination_hash") in
  let* request := lift (subscript data "nomadnet_file_download") in
  let* file_path := lift (subscript request "file_path") in
  let* destination_hash := lift (fromhex destination_hash) in
  let event status more :=
    PyDict [("type", PyStr "nomadnet.file.download");
            ("nomadnet_file_download",
             PyDict (("status", PyStr status) :: more))] in
  let on_file_download_success file_name file_bytes :=
    let* encoded := lift (b64encode file_bytes) in
    send_download_event client
      (event "success"
         [("destination_hash", PyStr (Py.hex destination_hash));
          ("file_path", file_path);
          ("file_name", file_name);
          ("file_bytes", PyStr encoded)]) in
  let on_file_download_failure failure_reason :=
    send_download_event client
      (event "error"
         [("failure_reason", PyStr failure_reason);
          ("destination_hash", PyStr (Py.hex destination_hash));
          ("file_path", file_path)]) in
  let on_file_download_progress progress :=
    send_download_event client
      (event "progress"
         [("progress", PyFloat progress);
          ("destination_hash", PyStr (Py.hex destination_hash));
          ("file_path", file_path)]) in
  NomadnetFileDownloader.init destination_hash file_path
    on_file_download_success on_file_download_failure
    on_file_download_progress None true ;;
  ret tt.

Definition nomadnet_page_download (client : Session) (data : PyVal) : M unit :=
  let* request := lift (subscript data "nomadnet_page_download") in
  let* destination_hash := lift (subscript request "destination_hash") in
  let* request := lift (subscript data "nomadnet_page_download") in
  let* page_path := lift (subscript request "page_path") in
  let* destination_hash := lift (fromhex destination_hash) in
  let event status more :=
    PyDict [("type", PyStr "nomadnet.page.download");
            ("nomadnet_page_download",
             PyDict (("status", PyStr status) :: more))] in
  let on_page_download_success page_content :=
    send_download_event client
      (event "success"
         [("destination_hash", PyStr (Py.hex destination_hash));
          ("page_path", page_path);
          ("page_content", PyStr page_content)]) in
  let on_page_download_failure failure_reason :=
    send_download_event client
      (event "error"
         [("failure_reason", PyStr failure_reason);
          ("destination_hash", PyStr (Py.hex destination_hash));
          ("page_path", page_path)]) in
  let on_page_download_progress progress :=
    send_download_event client
      (event "progress"
         [("progress", PyFloat progress);
          ("destination_hash", PyStr (Py.hex destination_hash));
          ("page_path", page_path)]) in
  NomadnetPageDownloader.init destination_hash page_path
    on_page_download_success on_page_download_failure
    on_page_download_progress None true ;;
  ret tt.

Definition config_set (data : PyVal) : M unit :=
  let* config := lift (subscript data "config") in
  let* present := lift (contains config "display_name") in
  (if present
   then
     let* display_name := lift (subscript config "display_name") in
     if not_empty_str display_name
     then
       modify (set_display_name display_name) ;;
       let* line := lift (concat "updated display name to: " display_name) in
       print line
     else ret tt
   else ret tt) ;;
  save_config ;;
  send_config_to_websocket_clients.

Definition send_announce : M unit :=
  let* display_name := gets display_name in
  match display_name with
  | PyStr s => call (RNS.announce (Py.encode_utf8 s))
  | _ => raise AttributeError
  end.

(** handle data received from a websocket client *)
Definition on_websocket_data_received (client : Session) (data : PyVal)
  : M unit :=
  let* _type := lift (subscript data "type") in
  match _type with
  | PyStr "config.set" => config_set data
  | PyStr "lxmf.delivery" =>
      let* destination_hash := lift (subscript data "destination_hash") in
      let* message := lift (subscript data "message") in
      send_message destination_hash message
  | PyStr "announce" => send_announce
  | PyStr "nomadnet.file.download" => nomadnet_file_download client data
  | PyStr "nomadnet.page.download" => nomadnet_page_download client data
  | _ =>
      let* line := lift (concat "unhandled client message type: " _type) in
      print line
  end.

(** one turn of [async for msg in websocket_response] *)
Definition on_frame (websocket_response : Session) (msg : WSMessage) : M unit :=
  match msg with
  | TEXT loaded =>
      try_except
        (let* data := lift loaded in
         on_websocket_data_received websocket_response data)
        (fun e =>
           print "failed to process client message" ;;
           let* message := gets (fun w => str w e) in
           print message)
  | ERROR => print "ws connection error"
  | OTHER => ret tt
  end.

(** the first part of the [/ws] route: the session joins the registry and
    the configuration and the known peers are sent *)
Definition ws_register (websocket_response : Session) : M unit :=
  modify (fun w =>
            set_websocket_clients
              (websocket_clients w ++ [websocket_response]) w) ;;
  send_config_to_websocket_clients ;;
  send_known_peers_to_websocket_clients.

(** the [/ws] route for a new [websocket_response] and the frames that it
    yields until it is closed *)
Definition ws (websocket_response : Session) (frames : list WSMessage)
  : M unit :=
  ws_register websocket_response ;;
  for_each frames (on_frame websocket_response) ;;
  remove websocket_response.

End Viewer.

(* ===================================================================== *)
(** * What a session has received                                         *)
(* ===================================================================== *)

(** the frames written to session [c], oldest first *)
Definition frames_of (c : Session) (l : list (Session * PyVal)) : list PyVal :=
  map snd (filter (fun p => Nat.eqb (fst p) c) l).

Definition received (c : Session) (w : World) : list PyVal :=
  frames_of c (wire w).

(** one frame for each of the sessions [l] *)
Definition frames_to (l : list Session) (data : PyVal)
  : list (Session * PyVal) :=
  map (fun c => (c, data)) l.

(** the loop of the broadcast over a list of sessions *)
Definition send_all (clients : list Session) (data : PyVal) : M unit :=
  for_each clients (fun websocket_client => send_str websocket_client data).

Definition is_closing (w : World) (c : Session) : bool :=
  existsb (Nat.eqb c) (closing w).

(** the broadcast isolates the failure of a session: it returns, and every
    session that accepts frames has got the event *)
Definition isolates_failures (w : World) (data : PyVal) : Prop :=
  exists w',
    websocket_broadcast data w = (Return tt, w')
    /\ forall c, In c (websocket_clients w) -> is_closing w c = false ->
                 received c w' = received c w ++ [data].

(** registration gives the session the configuration and then the known
    peers as the first two events that it receives *)
Definition gets_snapshot (c : Session) (w : World) : Prop :=
  exists rest,
    received c (snd (ws_register c w))
    = config_event w :: known_peers_event w :: rest.

(** a step that only writes frames *)
Definition only_writes (w w' : World) : Prop := w' = set_wire (wire w') w.

(** the ledger never holds a hash twice, and stores its rows by rising id *)
Definition unique_hashes (t : database.Table) : Prop :=
  NoDup (map database.hash t).

Definition older (r r' : database.LxmfMessage) : Prop :=
  database.id r < database.id r'.

Definition not_younger (r r' : database.LxmfMessage) : Prop :=
  database.id r <= database.id r'.

Definition rising_ids (t : database.Table) : Prop := StronglySorted older t.

(** what every ledger that the program has written to satisfies *)
Definition ledger_ok (t : database.Table) : Prop :=
  unique_hashes t /\ rising_ids t.

(** a row runs between [a] and [b], in either direction *)
Definition runs_between (a b : string) (row : database.LxmfMessage) : Prop :=
  (database.source_hash row = a /\ database.destination_hash row = b)
  \/ (database.destination_hash row = a /\ database.source_hash row = b).

(** no registered session refuses a frame *)
Definition all_open (w : World) : Prop :=
  forall c, In c (websocket_clients w) -> is_closing w c = false.

(** a statement that leaves the registry as it is, whatever it returns *)
Definition keeps_registry {A : Type} (m : M A) : Prop :=
  forall w, websocket_clients (snd (m w)) = websocket_clients w.

(** a statement that leaves a well formed ledger well formed *)
Definition keeps_ledger {A : Type} (m : M A) : Prop :=
  forall w, ledger_ok (db w) -> ledger_ok (db (snd (m w))).

(** a file attachment as the sender packs it, and as the viewers get it *)
Definition attachment_value (a : string * Py.bytes) : PyVal :=
  PyList [PyStr (fst a); PyBytes (snd a)].

Definition attachment_dict (a : string * Py.bytes) : PyVal :=
  PyDict [("file_name", PyStr (fst a));
          ("file_bytes", PyStr (Py.b64encode (snd a)))].

(** the field type is none of those that the conversion handles *)
Definition other_field (f : LXMF.FieldType * PyVal) : Prop :=
  exists code, fst f = LXMF.FIELD_OTHER code.

(* ===================================================================== *)
(** * Sample worlds and messages                                          *)
(* ===================================================================== *)

Module Sample.

Definition noon : database.datetime :=
  {| database.year := 2024; database.month := 3; database.day := 9;
     database.hour := 12; database.minute := 0; database.second := 0;
     database.microsecond := 0 |}.

Definition later : database.datetime :=
  {| database.year := 2024; database.month := 3; database.day := 9;
     database.hour := 12; database.minute := 0; database.second := 7;
     database.microsecond := 250000 |}.

(** a fresh process: nobody connected, nothing stored, nobody known *)
Definition fresh : World :=
  {| display_name := PyStr "Anonymous Peer";
     identity_hexhash := "a1b2";
     lxmf_address_hash := [xc3; xd4];
     config_file := PyDict [];
     config_file_writable := true;
     websocket_clients := [];
     closing := [];
     wire := [];
     db := [];
     statements := [];
     known_destinations := [];
     network := [];
     datetime_now := noon;
     time_time := 1710000000%float;
     str := class_name;
     stdout := [] |}.

(** three viewers, the second of which has dropped its connection without
    its route having noticed yet *)
Definition one_closing : World :=
  {| display_name := PyStr "Anonymous Peer";
     identity_hexhash := "a1b2";
     lxmf_address_hash := [xc3; xd4];
     config_file := PyDict [];
     config_file_writable := true;
     websocket_clients := [1; 2; 3]%nat;
     closing := [2%nat];
     wire := [];
     db := [];
     statements := [];
     known_destinations := [];
     network := [];
     datetime_now := noon;
     time_time := 1710000000%float;
     str := class_name;
     stdout := [] |}.

Definition three_viewers : World :=
  set_websocket_clients [1; 2; 3]%nat fresh.

(** an outbound message on its way, 45.67 percent transferred *)
Definition sending : LXMF.LXMessage :=
  {| LXMF.hash := [xab; xcd];
     LXMF.source_hash := [xc3; xd4];
     LXMF.destination_hash := [x12; x34];
     LXMF.incoming := false;
     LXMF.state := LXMF.SENDING;
     LXMF.progress := 0.4567%float;
     LXMF.title := [];
     LXMF.content := Py.encode_utf8 "hello";
     LXMF.fields := [];
     LXMF.timestamp := 1710000000%float |}.

(** the same message once delivered *)
Definition delivered : LXMF.LXMessage :=
  {| LXMF.hash := [xab; xcd];
     LXMF.source_hash := [xc3; xd4];
     LXMF.destination_hash := [x12; x34];
     LXMF.incoming := false;
     LXMF.state := LXMF.DELIVERED;
     LXMF.progress := 1%float;
     LXMF.title := [];
     LXMF.content := Py.encode_utf8 "hello";
     LXMF.fields := [];
     LXMF.timestamp := 1710000000%float |}.

Definition ping : PyVal := PyDict [("type", PyStr "ping")].

(** an inbound message whose title is not UTF-8 *)
Definition garbled : LXMF.LXMessage :=
  {| LXMF.hash := [xee; xff];
     LXMF.source_hash := [x12; x34];
     LXMF.destination_hash := [xc3; xd4];
     LXMF.incoming := true;
     LXMF.state := LXMF.DELIVERED;
     LXMF.progress := 1%float;
     LXMF.title := [xff];
     LXMF.content := Py.encode_utf8 "hello";
     LXMF.fields := [];
     LXMF.timestamp := 1710000000%float |}.

Definition somebody : RNS.Identity := {| RNS.get_public_key := [x77] |}.

(** a page download whose outcome is printed *)
Definition page_job : NomadnetDownloader.t :=
  {| NomadnetDownloader.app_name := "nomadnetwork";
     NomadnetDownloader.aspects := "node";
     NomadnetDownloader.destination_hash := [x12; x34];
     NomadnetDownloader.path := PyStr "/page/index.mu";
     NomadnetDownloader.timeout := None;
     NomadnetDownloader.on_download_success := fun _ => print "success";
     NomadnetDownloader.on_download_failure :=
       fun reason => print ("failed: " ++ reason)%string;
     NomadnetDownloader.on_progress_update := fun _ => print "progress" |}.

(** a message from [source] to [destination], both one byte long *)
Definition note (hash source destination : byte) (text : string)
  : LXMF.LXMessage :=
  {| LXMF.hash := [hash];
     LXMF.source_hash := [source];
     LXMF.destination_hash := [destination];
     LXMF.incoming := false;
     LXMF.state := LXMF.SENT;
     LXMF.progress := 1%float;
     LXMF.title := [];
     LXMF.content := Py.encode_utf8 text;
     LXMF.fields := [];
     LXMF.timestamp := 1710000000%float |}.

(** the ledger after A to B, then C to D, then B to A were upserted, for the
    addresses A = 0a, B = 0b, C = 0c and D = 0d *)
Definition conversation : World :=
  snd (db_upsert_lxmf_message (note x03 x0b x0a "pong")
         (snd (db_upsert_lxmf_message (note x02 x0c x0d "other")
                 (snd (db_upsert_lxmf_message (note x01 x0a x0b "ping")
                         fresh))))).

(** a process that has heard the announce of the peer 1234 *)
Definition acquainted : World :=
  {| display_name := PyStr "Anonymous Peer";
     identity_hexhash := "a1b2";
     lxmf_address_hash := [xc3; xd4];
     config_file := PyDict [];
     config_file_writable := true;
     websocket_clients := [1; 2]%nat;
     closing := [];
     wire := [];
     db := [];
     statements := [];
     known_destinations :=
       [([x12; x34],
         {| RNS.last_announce := 1709999000%float;
            RNS.public_key := [x77];
            RNS.app_data := Some (Py.encode_utf8 "Alice") |})];
     network := [];
     datetime_now := noon;
     time_time := 1710000000%float;
     str := class_name;
     stdout := [] |}.

(** a router that packs every text into a message with the hash abcd *)
Definition pack (source : Py.bytes) (recipient : RNS.Identity)
  (message_content : PyVal) (now : float) : Outcome LXMF.LXMessage :=
  match message_content with
  | PyStr text =>
      Return {| LXMF.hash := [xab; xcd];
                LXMF.source_hash := source;
                LXMF.destination_hash := [x12; x34];
                LXMF.incoming := false;
                LXMF.state := LXMF.OUTBOUND;
                LXMF.progress := 0%float;
                LXMF.title := [];
                LXMF.content := Py.encode_utf8 text;
                LXMF.fields := [];
                LXMF.timestamp := now |}
  | _ => Raise AttributeError
  end.

(** a page download, as the page downloader sets it up, that prints the
    page *)
Definition page_reader : NomadnetDownloader.t :=
  {| NomadnetDownloader.app_name := "nomadnetwork";
     NomadnetDownloader.aspects := "node";
     NomadnetDownloader.destination_hash := [x12; x34];
     NomadnetDownloader.path := PyStr "/page/index.mu";
     NomadnetDownloader.timeout := None;
     NomadnetDownloader.on_download_success :=
       NomadnetPageDownloader.on_download_success
         (fun text => print ("page: " ++ text)%string);
     NomadnetDownloader.on_download_failure :=
       NomadnetPageDownloader.on_download_failure
         (fun reason => print ("failed: " ++ reason)%string);
     NomadnetDownloader.on_progress_update := fun _ => print "progress" |}.

(** a transport on which [client.send] does not exist *)
Definition no_send (client : Session) (data : PyVal) : M unit :=
  raise AttributeError.

End Sample.

(* ===================================================================== *)
(** * Properties                                                          *)
(* ===================================================================== *)

(** ** Built-ins on sample inputs *)

Example hex_example :
  Py.hex [x12; xab; xff] = "12abff".
Proof. reflexivity. Qed.

Example b64encode_example :
  Py.b64encode (Py.encode_utf8 "light work.") = "bGlnaHQgd29yay4=".
Proof. reflexivity. Qed.

Example decode_example :
  Py.decode_utf8 [xc3; xa9] = Some (string_of_list_byte [xc3; xa9])
  /\ Py.decode_utf8 [xff] = None
  /\ Py.decode_utf8 [xc0; x80] = None
  /\ Py.decode_utf8 [xed; xa0; x80] = None.
Proof. repeat split; reflexivity. Qed.

Example round2_examples :
  Py.round2 0.125 = 0.12%float /\ Py.round2 0.375 = 0.38%float
  /\ Py.round2 2.675 = 2.67%float /\ Py.round2 (-2.5) = (-2.5)%float.
Proof. repeat split; reflexivity. Qed.

(** ** Statements *)

Lemma bind_Return {A B} (m : M A) (k : A -> M B) w a w' :
  m w = (Return a, w') -> bind m k w = k a w'.
Proof. intros H. unfold bind. now rewrite H. Qed.

Lemma bind_Raise {A B} (m : M A) (k : A -> M B) w e w' :
  m w = (Raise e, w') -> bind m k w = (Raise e, w').
Proof. intros H. unfold bind. now rewrite H. Qed.

Lemma try_except_returns {A} (m : M A) (handler : exn -> M A) :
  (forall e w, exists a w', handler e w = (Return a, w')) ->
  forall w, exists a w', try_except m handler w = (Return a, w').
Proof.
  intros Hh w. unfold try_except.
  destruct (m w) as [[a | e] w'].
  - now exists a, w'.
  - apply Hh.
Qed.

(** ** Frames *)

Lemma frames_of_app c l1 l2 :
  frames_of c (l1 ++ l2) = frames_of c l1 ++ frames_of c l2.
Proof. unfold frames_of. now rewrite filter_app, map_app. Qed.

Lemma frames_of_cons c x data l :
  frames_of c ((x, data) :: l)
  = if Nat.eqb x c then data :: frames_of c l else frames_of c l.
Proof. unfold frames_of. simpl. now destruct (Nat.eqb x c). Qed.

Lemma frames_of_absent c l data :
  ~ In c l -> frames_of c (frames_to l data) = [].
Proof.
  induction l as [| x l IH]; intros Hc; [reflexivity |].
  change (frames_to (x :: l) data) with ((x, data) :: frames_to l data).
  rewrite frames_of_cons.
  destruct (Nat.eqb_spec x c) as [-> | _].
  - exfalso. apply Hc. now left.
  - apply IH. intros H. apply Hc. now right.
Qed.

Lemma frames_of_present c l data :
  NoDup l -> In c l -> frames_of c (frames_to l data) = [data].
Proof.
  induction l as [| x l IH]; intros Hn Hc; [destruct Hc |].
  inversion Hn as [| ? ? Hx Hl]; subst.
  change (frames_to (x :: l) data) with ((x, data) :: frames_to l data).
  rewrite frames_of_cons.
  destruct (Nat.eqb_spec x c) as [-> | Hne].
  - now rewrite frames_of_absent.
  - destruct Hc as [-> | Hc]; [contradiction |]. now apply IH.
Qed.

Lemma is_closing_spec w c : is_closing w c = true <-> In c (closing w).
Proof.
  unfold is_closing. rewrite existsb_exists. split.
  - intros [x [Hx He]]. apply Nat.eqb_eq in He. now subst.
  - intros H. exists c. split; [assumption | apply Nat.eqb_refl].
Qed.

Lemma is_closing_false w c : is_closing w c = false <-> ~ In c (closing w).
Proof.
  rewrite <- is_closing_spec. destruct (is_closing w c); split; congruence.
Qed.

(** ** The loop of the broadcast *)

Lemma websocket_broadcast_unfold data w :
  websocket_broadcast data w = send_all (websocket_clients w) data w.
Proof. reflexivity. Qed.

Lemma set_wire_same w : set_wire (wire w) w = w.
Proof. now destruct w. Qed.

(** when every session accepts the frame, each gets it, in registry order *)
Lemma send_all_open clients data : forall w,
  (forall c, In c clients -> is_closing w c = false) ->
  send_all clients data w
  = (Return tt, set_wire (wire w ++ frames_to clients data) w).
Proof.
  induction clients as [| c r IH]; intros w Hopen.
  - simpl. now rewrite app_nil_r, set_wire_same.
  - unfold send_all in *. simpl. unfold bind at 1. unfold send_str at 1.
    fold (is_closing w c). rewrite (Hopen c (or_introl eq_refl)).
    rewrite IH.
    + simpl. now rewrite <- app_assoc.
    + intros x Hx. unfold is_closing. simpl. apply Hopen. now right.
Qed.

(** the loop stops at the first session that refuses the frame *)
Lemma send_all_closing pre c post data : forall w,
  (forall x, In x pre -> is_closing w x = false) ->
  is_closing w c = true ->
  send_all (pre ++ c :: post) data w
  = (Raise ConnectionResetError, set_wire (wire w ++ frames_to pre data) w).
Proof.
  induction pre as [| x r IH]; intros w Hopen Hc.
  - unfold send_all. simpl. unfold bind, send_str. fold (is_closing w c).
    rewrite Hc. now rewrite app_nil_r, set_wire_same.
  - unfold send_all in *. simpl. unfold bind at 1. unfold send_str at 1.
    fold (is_closing w x). rewrite (Hopen x (or_introl eq_refl)).
    rewrite IH.
    + simpl. now rewrite <- app_assoc.
    + intros y Hy. unfold is_closing. simpl. apply Hopen. now right.
    + exact Hc.
Qed.

(** the registry splits at its first closing session, if it has one *)
Lemma first_closing w (clients : list Session) :
  (forall c, In c clients -> is_closing w c = false)
  \/ exists pre c post,
       clients = pre ++ c :: post
       /\ (forall x, In x pre -> is_closing w x = false)
       /\ is_closing w c = true.
Proof.
  induction clients as [| x r IH].
  - left. intros c [].
  - destruct (is_closing w x) eqn:Hx.
    + right. exists [], x, r. repeat split; [intros y [] | assumption].
    + destruct IH as [IH | (pre & c & post & -> & Hpre & Hc)].
      * left. intros c [<- | Hc]; auto.
      * right. exists (x :: pre), c, post. repeat split; [| assumption].
        intros y [<- | Hy]; auto.
Qed.

(** ** Fan-out *)

Lemma received_after_frames c w l :
  received c (set_wire (wire w ++ l) w) = received c w ++ frames_of c l.
Proof. unfold received. simpl. apply frames_of_app. Qed.

(** C9. A broadcast in which no delivery fails gives the event exactly once
    to every session that is registered when it starts and nothing to any
    other session; a session that was removed from the registry beforehand
    is such an other session. *)
Theorem websocket_broadcast_complete (w : World) (data : PyVal) :
  NoDup (websocket_clients w) ->
  (forall c, In c (websocket_clients w) -> is_closing w c = false) ->
  exists w',
    websocket_broadcast data w = (Return tt, w')
    /\ (forall c, In c (websocket_clients w) ->
                  received c w' = received c w ++ [data])
    /\ (forall c, ~ In c (websocket_clients w) -> received c w' = received c w)
    /\ (forall c w0,
          NoDup (websocket_clients w0) ->
          remove c w0 = (Return tt, w) ->
          received c w' = received c w0).
Proof.
  intros Hnd Hopen.
  exists (set_wire (wire w ++ frames_to (websocket_clients w) data) w).
  assert (Habsent : forall c, ~ In c (websocket_clients w) ->
            received c (set_wire (wire w ++ frames_to (websocket_clients w) data) w)
            = received c w).
  { intros c Hc. rewrite received_after_frames, frames_of_absent by assumption.
    apply app_nil_r. }
  split; [| split; [| split]].
  - rewrite websocket_broadcast_unfold. now apply send_all_open.
  - intros c Hc. rewrite received_after_frames.
    now rewrite frames_of_present.
  - exact Habsent.
  - intros c w0 Hnd0 Hrm. unfold remove in Hrm.
    destruct (existsb (Nat.eqb c) (websocket_clients w0)); [| discriminate].
    injection Hrm as <-.
    assert (Hgone : forall l, NoDup l -> ~ In c (remove_first c l)).
    { induction l as [| x l IH]; intros Hl; [intros [] |].
      inversion Hl as [| ? ? Hx Hl']; subst. simpl.
      destruct (Nat.eqb_spec x c) as [-> | Hne]; [assumption |].
      intros [-> | Hin]; [congruence | now apply IH]. }
    rewrite received_after_frames. simpl.
    rewrite frames_of_absent by now apply Hgone.
    apply app_nil_r.
Qed.

Lemma websocket_broadcast_complete_witness :
  exists w',
    websocket_broadcast Sample.ping Sample.three_viewers = (Return tt, w')
    /\ received 2%nat w' = [Sample.ping].
Proof.
  destruct (websocket_broadcast_complete Sample.three_viewers Sample.ping)
    as (w' & Hrun & Hin & _).
  - repeat constructor; simpl; intuition congruence.
  - intros c _. reflexivity.
  - exists w'. split; [exact Hrun |].
    apply (Hin 2%nat). simpl. auto.
Defined.

(** C2, as the specification has it, fails: with three viewers of which the
    second refuses the frame, the broadcast raises and the third viewer,
    whose connection is fine, gets nothing. *)
Lemma websocket_broadcast_failure_not_isolated :
  ~ isolates_failures Sample.one_closing Sample.ping
  /\ websocket_broadcast Sample.ping Sample.one_closing
     = (Raise ConnectionResetError,
        set_wire [(1%nat, Sample.ping)] Sample.one_closing)
  /\ is_closing Sample.one_closing 3%nat = false
  /\ received 3%nat (snd (websocket_broadcast Sample.ping Sample.one_closing))
     = [].
Proof.
  split; [| repeat split].
  intros (w' & Hrun & _). discriminate Hrun.
Qed.

(** C2, amended. The broadcast writes to the sessions in registry order and
    stops at the first one that refuses the frame: the sessions before it
    have got the event, no other session gets anything, and the exception
    reaches the caller of the broadcast. *)
Theorem websocket_broadcast_stops_at_failure
  (w : World) (data : PyVal) (pre : list Session) (c : Session)
  (post : list Session) :
  websocket_clients w = pre ++ c :: post ->
  (forall x, In x pre -> is_closing w x = false) ->
  is_closing w c = true ->
  exists w',
    websocket_broadcast data w = (Raise ConnectionResetError, w')
    /\ wire w' = wire w ++ frames_to pre data
    /\ (forall x, ~ In x pre -> received x w' = received x w).
Proof.
  intros Hreg Hpre Hc.
  exists (set_wire (wire w ++ frames_to pre data) w).
  split; [| split].
  - rewrite websocket_broadcast_unfold, Hreg. now apply send_all_closing.
  - reflexivity.
  - intros x Hx. rewrite received_after_frames, frames_of_absent by assumption.
    apply app_nil_r.
Qed.

Lemma websocket_broadcast_stops_at_failure_witness :
  exists w',
    websocket_broadcast Sample.ping Sample.one_closing
    = (Raise ConnectionResetError, w')
    /\ wire w' = [(1%nat, Sample.ping)]
    /\ received 3%nat w' = [].
Proof.
  destruct (websocket_broadcast_stops_at_failure
              Sample.one_closing Sample.ping [1%nat] 2%nat [3%nat])
    as (w' & Hrun & Hwire & Hrest).
  - reflexivity.
  - intros x [<- | []]. reflexivity.
  - reflexivity.
  - exists w'. repeat split; [exact Hrun | exact Hwire |].
    rewrite (Hrest 3%nat); [reflexivity |].
    simpl. intuition congruence.
Defined.

(** ** Registration *)

Lemma only_writes_trans w1 w2 w3 :
  only_writes w1 w2 -> only_writes w2 w3 -> only_writes w1 w3.
Proof. unfold only_writes. intros H12 H23. rewrite H23, H12. reflexivity. Qed.

Lemma before_the_last {A} (pre : list A) x post : forall old c,
  pre ++ x :: post = old ++ [c] -> exists k, old = pre ++ k.
Proof.
  induction pre as [| p pre IH]; intros old c H.
  - now exists old.
  - destruct old as [| o old]; simpl in H.
    + injection H as _ H. now destruct pre.
    + injection H as -> H. destruct (IH _ _ H) as [k ->]. now exists k.
Qed.

(** a broadcast when [c] is the last one registered: [c] gets the event if
    the broadcast returns and nothing if it raises *)
Lemma websocket_broadcast_newcomer data old c w :
  websocket_clients w = old ++ [c] ->
  ~ In c old ->
  exists r w',
    websocket_broadcast data w = (r, w')
    /\ only_writes w w'
    /\ match r with
       | Return _ => received c w' = received c w ++ [data]
       | Raise _ => received c w' = received c w
       end.
Proof.
  intros Hreg Hnew. rewrite websocket_broadcast_unfold.
  destruct (first_closing w (websocket_clients w))
    as [Hopen | (pre & x & post & Hsplit & Hpre & Hx)].
  - rewrite send_all_open by assumption.
    eexists _, _. split; [reflexivity |]. split; [reflexivity |].
    rewrite received_after_frames, Hreg. unfold frames_to.
    rewrite map_app, frames_of_app. fold (frames_to old data).
    rewrite frames_of_absent by assumption. simpl.
    rewrite frames_of_cons, Nat.eqb_refl. reflexivity.
  - rewrite Hsplit, send_all_closing by assumption.
    eexists _, _. split; [reflexivity |]. split; [reflexivity |].
    rewrite received_after_frames, frames_of_absent; [apply app_nil_r |].
    rewrite Hreg in Hsplit. symmetry in Hsplit.
    destruct (before_the_last _ _ _ _ _ Hsplit) as [k ->].
    intros Hin. apply Hnew. apply in_or_app. now left.
Qed.

(** the same for an event that is first serialised *)
Lemma send_event_newcomer (event : World -> PyVal) old c w :
  websocket_clients w = old ++ [c] ->
  ~ In c old ->
  exists r w',
    (let* e := gets event in
     let* data := lift (json_dumps e) in
     websocket_broadcast data) w = (r, w')
    /\ only_writes w w'
    /\ match r with
       | Return _ => received c w' = received c w ++ [event w]
       | Raise _ => received c w' = received c w
       end.
Proof.
  intros Hreg Hnew. unfold bind at 1, gets. unfold bind at 1, lift, json_dumps.
  destruct (json_serializable (event w)).
  - now apply websocket_broadcast_newcomer with (old := old).
  - exists (Raise TypeError), w. repeat split.
    unfold only_writes. now rewrite set_wire_same.
Qed.

(** a broadcast writes frames and does nothing else *)
Lemma websocket_broadcast_only_writes data (w : World) :
  only_writes w (snd (websocket_broadcast data w)).
Proof.
  rewrite websocket_broadcast_unfold.
  destruct (first_closing w (websocket_clients w))
    as [Hopen | (pre & x & post & Hsplit & Hpre & Hx)].
  - now rewrite send_all_open.
  - rewrite Hsplit. now rewrite send_all_closing.
Qed.

Lemma send_event_only_writes (event : World -> PyVal) (w : World) :
  only_writes w (snd ((let* e := gets event in
                       let* data := lift (json_dumps e) in
                       websocket_broadcast data) w)).
Proof.
  unfold bind at 1, gets. unfold bind at 1, lift, json_dumps.
  destruct (json_serializable (event w)).
  - apply websocket_broadcast_only_writes.
  - simpl. unfold only_writes. now rewrite set_wire_same.
Qed.

(** the registry after a registration: the new session comes last *)
Lemma ws_register_registry c (w : World) :
  websocket_clients (snd (ws_register c w)) = websocket_clients w ++ [c].
Proof.
  set (wa := set_websocket_clients (websocket_clients w ++ [c]) w).
  assert (Hwa : ws_register c w
                = (send_config_to_websocket_clients ;;
                   send_known_peers_to_websocket_clients) wa) by reflexivity.
  rewrite Hwa. clear Hwa. unfold bind at 1.
  pose proof (send_event_only_writes config_event wa) as H1.
  fold send_config_to_websocket_clients in H1.
  destruct (send_config_to_websocket_clients wa) as [[[] | e] w1]; simpl in *.
  - pose proof (send_event_only_writes known_peers_event w1) as H2.
    fold send_known_peers_to_websocket_clients in H2.
    rewrite H2, H1. reflexivity.
  - rewrite H1. reflexivity.
Qed.

(** a fresh session keeps the registry free of duplicates *)
Lemma ws_register_NoDup c (w : World) :
  NoDup (websocket_clients w) ->
  ~ In c (websocket_clients w) ->
  NoDup (websocket_clients (snd (ws_register c w))).
Proof.
  intros Hnd Hnew. rewrite ws_register_registry.
  apply NoDup_app_remove_l with (l := []). simpl.
  apply Permutation_NoDup with (l := c :: websocket_clients w).
  - apply Permutation_cons_append.
  - now constructor.
Qed.

Section ViewerProperties.

Variable client_send : Session -> PyVal -> M unit.
Variable outbound :
  Py.bytes -> RNS.Identity -> PyVal -> float -> Outcome LXMF.LXMessage.

(** C3, amended. When the registration of a new session returns, the
    session has received exactly the configuration followed by the known
    peers, in this order, and only then the loop over its frames runs.  When
    a delivery fails during the registration, be it to the new session or to
    one registered before it, the route raises without reading any frame,
    and the new session has got nothing or the configuration only. *)
Theorem ws_snapshot_first (c : Session) (frames : list WSMessage) (w : World) :
  ~ In c (websocket_clients w) ->
  received c w = [] ->
  exists r w1,
    ws_register c w = (r, w1)
    /\ match r with
       | Return _ =>
           received c w1 = [config_event w; known_peers_event w]
           /\ ws client_send outbound c frames w
              = (for_each frames (on_frame client_send outbound c) ;;
                 remove c) w1
       | Raise e =>
           (received c w1 = [] \/ received c w1 = [config_event w])
           /\ ws client_send outbound c frames w = (Raise e, w1)
       end.
Proof.
  intros Hnew Hnone.
  set (wa := set_websocket_clients (websocket_clients w ++ [c]) w).
  assert (Hwa : ws_register c w
                = (send_config_to_websocket_clients ;;
                   send_known_peers_to_websocket_clients) wa) by reflexivity.
  destruct (send_event_newcomer config_event (websocket_clients w) c wa)
    as (r1 & w1 & Hrun1 & Hw1 & Hr1); [reflexivity | assumption |].
  fold send_config_to_websocket_clients in Hrun1.
  change (received c wa) with (received c w) in Hr1.
  change (config_event wa) with (config_event w) in Hr1.
  rewrite Hnone in Hr1. simpl in Hr1.
  destruct r1 as [[] | e1].
  - destruct (send_event_newcomer known_peers_event (websocket_clients w) c w1)
      as (r2 & w2 & Hrun2 & Hw2 & Hr2).
    { rewrite Hw1. reflexivity. }
    { assumption. }
    fold send_known_peers_to_websocket_clients in Hrun2.
    assert (Hkp : known_peers_event w1 = known_peers_event w).
    { rewrite Hw1. reflexivity. }
    rewrite Hkp, Hr1 in Hr2. simpl in Hr2.
    assert (Hreg : ws_register c w = (r2, w2)).
    { rewrite Hwa. now rewrite (bind_Return _ _ _ _ _ Hrun1). }
    exists r2, w2. split; [exact Hreg |].
    destruct r2 as [[] | e2].
    + split; [exact Hr2 |]. unfold ws.
      now rewrite (bind_Return _ _ _ _ _ Hreg).
    + split; [now right |]. unfold ws.
      now rewrite (bind_Raise _ _ _ _ _ Hreg).
  - assert (Hreg : ws_register c w = (Raise e1, w1)).
    { rewrite Hwa. now rewrite (bind_Raise _ _ _ _ _ Hrun1). }
    exists (Raise e1), w1. split; [exact Hreg |].
    split; [now left |]. unfold ws.
    now rewrite (bind_Raise _ _ _ _ _ Hreg).
Qed.

End ViewerProperties.

(** C3, as the specification has it, fails: with three viewers of which the
    second refuses the frame, a fourth viewer that connects is registered
    and gets neither the configuration nor the known peers; the route raises
    at the second viewer before it has written to the new one, and reads no
    frame. *)
Lemma ws_snapshot_not_delivered :
  ~ In 4%nat (websocket_clients Sample.one_closing)
  /\ received 4%nat Sample.one_closing = []
  /\ is_closing Sample.one_closing 4%nat = false
  /\ ws_register 4%nat Sample.one_closing
     = (Raise ConnectionResetError,
        set_wire [(1%nat, config_event Sample.one_closing)]
          (set_websocket_clients [1; 2; 3; 4]%nat Sample.one_closing))
  /\ received 4%nat (snd (ws_register 4%nat Sample.one_closing)) = []
  /\ ~ gets_snapshot 4%nat Sample.one_closing.
Proof.
  split; [simpl; intuition congruence |].
  repeat split.
  intros [rest Hrest]. discriminate Hrest.
Qed.

Lemma ws_snapshot_first_witness :
  exists w1,
    ws_register 4%nat Sample.three_viewers = (Return tt, w1)
    /\ received 4%nat w1
       = [config_event Sample.three_viewers;
          known_peers_event Sample.three_viewers].
Proof.
  destruct (ws_snapshot_first
              (fun _ _ => raise AttributeError)
              (fun _ _ _ _ => Raise TypeError)
              4%nat [TEXT (Return (PyDict [("type", PyStr "announce")]))]
              Sample.three_viewers)
    as (r & w1 & Hreg & Hr).
  - simpl. intuition congruence.
  - reflexivity.
  - destruct r as [[] | e].
    + exists w1. split; [exact Hreg | apply Hr].
    + discriminate Hreg.
Defined.

(** ** The ledger *)

Lemma has_hash_spec h row :
  database.has_hash h row = true <-> database.hash row = h.
Proof. unfold database.has_hash. apply String.eqb_eq. Qed.

Lemma filter_absent h (t : database.Table) :
  existsb (database.has_hash h) t = false ->
  filter (database.has_hash h) t = [].
Proof.
  induction t as [| r t IH]; simpl; [reflexivity |].
  destruct (database.has_hash h r); simpl; [discriminate | exact IH].
Qed.

Lemma absent_not_in h (t : database.Table) :
  existsb (database.has_hash h) t = false -> ~ In h (map database.hash t).
Proof.
  intros Hno Hin. apply in_map_iff in Hin as (r & Hr & Hin).
  assert (existsb (database.has_hash h) t = true); [| congruence].
  apply existsb_exists. exists r. split; [assumption |].
  now apply has_hash_spec.
Qed.

(** a hash that is present is the hash of exactly one row *)
Lemma filter_present h (t : database.Table) :
  unique_hashes t ->
  existsb (database.has_hash h) t = true ->
  exists row, filter (database.has_hash h) t = [row].
Proof.
  unfold unique_hashes.
  induction t as [| r t IH]; simpl; intros Hu Hin; [discriminate |].
  inversion Hu as [| ? ? Hr Ht]; subst.
  destruct (database.has_hash h r) eqn:Hh; simpl in Hin.
  - exists r. f_equal. apply filter_absent.
    destruct (existsb (database.has_hash h) t) eqn:He; [| reflexivity].
    exfalso. apply Hr. apply existsb_exists in He as (r' & Hin' & Hh').
    apply has_hash_spec in Hh, Hh'. rewrite Hh, <- Hh'. now apply in_map.
  - now apply IH.
Qed.

Lemma upsert_hashes now v updated (t : database.Table) :
  existsb (database.has_hash (database.v_hash v)) t = true ->
  map database.hash (database.upsert now v updated t) = map database.hash t.
Proof.
  intros Hin. unfold database.upsert. rewrite Hin. rewrite map_map.
  apply map_ext. intros r.
  destruct (database.has_hash (database.v_hash v) r) eqn:Hh; [| reflexivity].
  simpl. symmetry. now apply has_hash_spec.
Qed.

(** the upsert keeps the hashes unique *)
Lemma upsert_unique now v updated (t : database.Table) :
  unique_hashes t -> unique_hashes (database.upsert now v updated t).
Proof.
  intros Hu. unfold unique_hashes.
  destruct (existsb (database.has_hash (database.v_hash v)) t) eqn:Hin.
  - now rewrite upsert_hashes.
  - unfold database.upsert. rewrite Hin, map_app. simpl.
    apply NoDup_app_remove_l with (l := []). simpl.
    apply Permutation_NoDup with (l := database.v_hash v :: map database.hash t).
    + apply Permutation_cons_append.
    + constructor; [now apply absent_not_in | exact Hu].
Qed.

(** after an upsert there is one row with the hash, and it holds the values
    that were supplied *)
Lemma upsert_row now v updated (t : database.Table) :
  unique_hashes t ->
  exists row,
    filter (database.has_hash (database.v_hash v))
           (database.upsert now v updated t) = [row]
    /\ (existsb (database.has_hash (database.v_hash v)) t = true ->
        exists old,
          filter (database.has_hash (database.v_hash v)) t = [old]
          /\ row = database.update_row v updated old)
    /\ (existsb (database.has_hash (database.v_hash v)) t = false ->
        row = database.new_row now v (Some updated) t).
Proof.
  intros Hu. unfold database.upsert.
  destruct (existsb (database.has_hash (database.v_hash v)) t) eqn:Hin.
  - destruct (filter_present _ _ Hu Hin) as [old Hold].
    exists (database.update_row v updated old).
    split; [| split; [intros _; now exists old | discriminate]].
    clear Hin Hu. revert old Hold.
    induction t as [| r t IH]; simpl; intros old Hold; [discriminate |].
    destruct (database.has_hash (database.v_hash v) r) eqn:Hh; simpl.
    + unfold database.has_hash at 1. simpl. rewrite String.eqb_refl.
      injection Hold as -> Hrest. f_equal.
      clear IH. induction t as [| r' t IH]; simpl in *; [reflexivity |].
      destruct (database.has_hash (database.v_hash v) r') eqn:Hh';
        [discriminate |].
      simpl. rewrite Hh'. now apply IH.
    + rewrite Hh. now apply IH.
  - exists (database.new_row now v (Some updated) t).
    split; [| split; [discriminate | reflexivity]].
    rewrite filter_app, filter_absent by assumption. simpl.
    unfold database.has_hash. simpl. now rewrite String.eqb_refl.
Qed.

(** ** The conversion *)

Lemma convert_lxmf_message_to_dict_returns m d :
  convert_lxmf_message_to_dict m = Return d ->
  d_hash d = Py.hex (LXMF.hash m)
  /\ d_state d = convert_lxmf_state_to_string m
  /\ d_progress d = Py.round2 (LXMF.progress m * 100)%float
  /\ decode (LXMF.title m) = Return (d_title d)
  /\ decode (LXMF.content m) = Return (d_content d)
  /\ d_timestamp d = LXMF.timestamp m.
Proof.
  unfold convert_lxmf_message_to_dict.
  destruct (convert_fields [] (LXMF.get_fields m)); simpl; [| discriminate].
  destruct (decode (LXMF.title m)); simpl; [| discriminate].
  destruct (decode (LXMF.content m)); simpl; [| discriminate].
  intros [= <-]. simpl. repeat split.
Qed.

Lemma db_upsert_lxmf_message_returns m w w' :
  db_upsert_lxmf_message m w = (Return tt, w') ->
  exists d,
    convert_lxmf_message_to_dict m = Return d
    /\ w' = set_db (database.upsert (datetime_now w) (values d (d_fields d))
                                    (datetime_now w) (db w))
                   (database.UPSERT (d_hash d)) w.
Proof.
  unfold db_upsert_lxmf_message, bind, lift, gets, json_dumps,
    execute_upsert, modify.
  destruct (convert_lxmf_message_to_dict m) as [d | e]; [| discriminate].
  destruct (json_serializable (d_fields d)); [| discriminate].
  intros [= <-]. now exists d.
Qed.

(** C1. Two upserts of messages with the same hash, the clocks having moved
    in between, leave exactly one row with that hash in a ledger with unique
    hashes; its state, progress, title, content, fields, timestamp and
    updated_at are those of the second call, and its id and created_at are
    those that the first call left. *)
Theorem db_upsert_lxmf_message_idempotent
  (m1 m2 : LXMF.LXMessage) (w w1 w2 : World)
  (now : database.datetime) (t : float) :
  LXMF.hash m1 = LXMF.hash m2 ->
  unique_hashes (db w) ->
  db_upsert_lxmf_message m1 w = (Return tt, w1) ->
  db_upsert_lxmf_message m2 (set_clock now t w1) = (Return tt, w2) ->
  exists d2 first row,
    convert_lxmf_message_to_dict m2 = Return d2
    /\ filter (database.has_hash (Py.hex (LXMF.hash m2))) (db w1) = [first]
    /\ filter (database.has_hash (Py.hex (LXMF.hash m2))) (db w2) = [row]
    /\ List.length (db w2) = List.length (db w1)
    /\ unique_hashes (db w2)
    /\ database.state row = d_state d2
    /\ database.progress row = d_progress d2
    /\ database.title row = d_title d2
    /\ database.content row = d_content d2
    /\ database.fields row = d_fields d2
    /\ database.timestamp row = d_timestamp d2
    /\ database.updated_at row = now
    /\ database.id row = database.id first
    /\ database.created_at row = database.created_at first.
Proof.
  intros Hhash Hu Hrun1 Hrun2.
  apply db_upsert_lxmf_message_returns in Hrun1 as (d1 & Hd1 & ->).
  apply db_upsert_lxmf_message_returns in Hrun2 as (d2 & Hd2 & ->).
  simpl.
  destruct (convert_lxmf_message_to_dict_returns _ _ Hd1) as (Hh1 & _).
  destruct (convert_lxmf_message_to_dict_returns _ _ Hd2) as (Hh2 & _).
  set (v1 := values d1 (d_fields d1)). set (v2 := values d2 (d_fields d2)).
  set (t1 := database.upsert (datetime_now w) v1 (datetime_now w) (db w)).
  assert (Hv : database.v_hash v2 = database.v_hash v1).
  { simpl. now rewrite Hh1, Hh2, Hhash. }
  assert (Hv2 : Py.hex (LXMF.hash m2) = database.v_hash v2).
  { simpl. now rewrite Hh2. }
  assert (Hu1 : unique_hashes t1) by now apply upsert_unique.
  destruct (upsert_row (datetime_now w) v1 (datetime_now w) (db w) Hu)
    as (first & Hfirst & _).
  fold t1 in Hfirst. rewrite <- Hv in Hfirst.
  assert (Hin : existsb (database.has_hash (database.v_hash v2)) t1 = true).
  { destruct (existsb (database.has_hash (database.v_hash v2)) t1) eqn:He;
      [reflexivity |].
    apply filter_absent in He. rewrite He in Hfirst. discriminate. }
  destruct (upsert_row now v2 now t1 Hu1) as (row & Hrow & Hold & _).
  destruct (Hold Hin) as (old & Hfo & ->).
  rewrite Hfirst in Hfo. injection Hfo as <-.
  exists d2, first, (database.update_row v2 now first).
  rewrite Hv2.
  repeat split; try assumption.
  - unfold database.upsert. rewrite Hin. now rewrite length_map.
  - now apply upsert_unique.
Qed.

Lemma db_upsert_lxmf_message_idempotent_witness :
  exists w1 w2 row,
    db_upsert_lxmf_message Sample.sending Sample.fresh = (Return tt, w1)
    /\ db_upsert_lxmf_message Sample.delivered
         (set_clock Sample.later 1710000007 w1) = (Return tt, w2)
    /\ filter (database.has_hash "abcd") (db w2) = [row]
    /\ database.state row = "delivered"
    /\ database.progress row = 100%float
    /\ database.updated_at row = Sample.later
    /\ database.created_at row = Sample.noon.
Proof.
  pose (w1 := snd (db_upsert_lxmf_message Sample.sending Sample.fresh)).
  pose (w2 := snd (db_upsert_lxmf_message Sample.delivered
                     (set_clock Sample.later 1710000007 w1))).
  destruct (db_upsert_lxmf_message_idempotent
              Sample.sending Sample.delivered Sample.fresh w1 w2
              Sample.later 1710000007)
    as (d2 & first & row & Hd2 & Hfirst & Hrow & _ & _ & Hstate & Hprogress
        & _ & _ & _ & _ & Hupdated & _ & Hcreated).
  - reflexivity.
  - constructor.
  - reflexivity.
  - reflexivity.
  - exists w1, w2, row.
    injection Hd2 as <-. injection Hfirst as <-.
    repeat split; assumption.
Defined.

(** ** The query *)

Lemma between_spec a b row :
  database.between a b row = true <-> runs_between a b row.
Proof.
  unfold database.between, runs_between.
  rewrite orb_true_iff, !andb_true_iff, !String.eqb_eq. reflexivity.
Qed.

Lemma place_perm row l : Permutation (database.place row l) (row :: l).
Proof.
  induction l as [| r l IH]; simpl; [reflexivity |].
  destruct (database.id row <? database.id r); [reflexivity |].
  rewrite IH. apply perm_swap.
Qed.

Lemma order_by_id_perm l : Permutation (database.order_by_id l) l.
Proof.
  induction l as [| r l IH]; simpl; [reflexivity |].
  rewrite place_perm. now constructor.
Qed.

Lemma place_sorted row l :
  StronglySorted not_younger l ->
  StronglySorted not_younger (database.place row l).
Proof.
  induction 1 as [| r l Hl IH Hr]; simpl.
  - repeat constructor.
  - destruct (Z.ltb_spec (database.id row) (database.id r)) as [Hlt | Hge].
    + constructor; [now constructor |].
      constructor; [unfold not_younger; lia |].
      eapply Forall_impl; [| exact Hr]. unfold not_younger. intros; lia.
    + constructor; [exact IH |].
      eapply Permutation_Forall; [symmetry; apply place_perm |].
      constructor; [exact Hge | exact Hr].
Qed.

Lemma order_by_id_sorted l : StronglySorted not_younger (database.order_by_id l).
Proof.
  induction l as [| r l IH]; simpl; [constructor | now apply place_sorted].
Qed.

(** rows that are stored by rising id come out of the ordering as they are *)
Lemma order_by_id_rising l : rising_ids l -> database.order_by_id l = l.
Proof.
  induction 1 as [| r l Hl IH Hr]; simpl; [reflexivity |].
  rewrite IH. destruct l as [| r' l]; [reflexivity |]. simpl.
  inversion Hr as [| ? ? Hlt _]; subst. unfold older in Hlt.
  apply Z.ltb_lt in Hlt. now rewrite Hlt.
Qed.

Lemma filter_rising f l : rising_ids l -> rising_ids (filter f l).
Proof.
  induction 1 as [| r l Hl IH Hr]; simpl; [constructor |].
  destruct (f r); [| exact IH].
  constructor; [exact IH |].
  apply Forall_forall. intros x Hx. apply filter_In in Hx as [Hx _].
  rewrite Forall_forall in Hr. now apply Hr.
Qed.

Lemma largest_id_above (t : database.Table) :
  Forall (fun r => database.id r <= fold_right Z.max 0 (map database.id t)) t.
Proof.
  induction t as [| r t IH]; constructor.
  - cbn [map fold_right]. lia.
  - eapply Forall_impl; [| exact IH]. cbn [map fold_right]. intros; lia.
Qed.

Lemma next_id_above (t : database.Table) :
  Forall (fun r => database.id r < database.next_id t) t.
Proof.
  eapply Forall_impl; [| apply largest_id_above].
  unfold database.next_id. intros; lia.
Qed.

Lemma rising_snoc (t : database.Table) row :
  rising_ids t -> Forall (fun r => older r row) t -> rising_ids (t ++ [row]).
Proof.
  induction 1 as [| r l Hl IH Hr]; intros Hall; simpl.
  - repeat constructor.
  - inversion Hall as [| ? ? Hrow Hrest]; subst.
    constructor; [now apply IH |].
    apply Forall_app. split; [exact Hr | now constructor].
Qed.

Lemma rising_map f (t : database.Table) :
  (forall r, database.id (f r) = database.id r) ->
  rising_ids t -> rising_ids (map f t).
Proof.
  intros Hf. induction 1 as [| r l Hl IH Hr]; simpl; constructor.
  - exact IH.
  - apply Forall_map. eapply Forall_impl; [| exact Hr].
    unfold older. intros x Hx. now rewrite !Hf.
Qed.

(** the two statements that write keep the rows stored by rising id *)
Lemma upsert_rising now v updated (t : database.Table) :
  rising_ids t -> rising_ids (database.upsert now v updated t).
Proof.
  intros Hr. unfold database.upsert.
  destruct (existsb (database.has_hash (database.v_hash v)) t).
  - apply rising_map; [| exact Hr].
    intros r. now destruct (database.has_hash (database.v_hash v) r).
  - apply rising_snoc; [exact Hr |]. apply next_id_above.
Qed.

Lemma insert_rising now v (t t' : database.Table) :
  rising_ids t -> database.insert now v t = Return t' -> rising_ids t'.
Proof.
  intros Hr. unfold database.insert.
  destruct (existsb (database.has_hash (database.v_hash v)) t);
    [discriminate |].
  intros [= <-]. apply rising_snoc; [exact Hr |]. apply next_id_above.
Qed.

Lemma insert_unique now v (t t' : database.Table) :
  unique_hashes t -> database.insert now v t = Return t' -> unique_hashes t'.
Proof.
  intros Hu. unfold database.insert.
  destruct (existsb (database.has_hash (database.v_hash v)) t) eqn:Hin;
    [discriminate |].
  intros [= <-]. unfold unique_hashes. rewrite map_app. simpl.
  apply Permutation_NoDup with (l := database.v_hash v :: map database.hash t).
  - apply Permutation_cons_append.
  - constructor; [now apply absent_not_in | exact Hu].
Qed.

(** the callbacks that write to the ledger keep it well formed *)
Lemma db_upsert_lxmf_message_ledger m (w : World) :
  ledger_ok (db w) -> ledger_ok (db (snd (db_upsert_lxmf_message m w))).
Proof.
  intros [Hu Hr].
  unfold db_upsert_lxmf_message, bind, lift, gets, json_dumps,
    execute_upsert, modify.
  destruct (convert_lxmf_message_to_dict m) as [d | e]; [| now split].
  destruct (json_serializable (d_fields d)); [| now split].
  simpl. split; [now apply upsert_unique | now apply upsert_rising].
Qed.

Lemma save_ledger v (w : World) :
  ledger_ok (db w) -> ledger_ok (db (snd (save v w))).
Proof.
  intros [Hu Hr]. unfold save.
  destruct (database.insert (datetime_now w) v (db w)) as [t |] eqn:Hinsert;
    simpl; [| now split].
  split; [eapply insert_unique | eapply insert_rising]; eassumption.
Qed.

Lemma only_writes_db (w w' : World) : only_writes w w' -> db w' = db w.
Proof. intros ->. reflexivity. Qed.

Lemma on_lxmf_sending_state_updated_ledger m (w : World) :
  ledger_ok (db w) ->
  ledger_ok (db (snd (on_lxmf_sending_state_updated m w))).
Proof.
  intros Hok. unfold on_lxmf_sending_state_updated. unfold bind at 1.
  pose proof (db_upsert_lxmf_message_ledger m w Hok) as Hok1.
  destruct (db_upsert_lxmf_message m w) as [[[] | e] w1]; [| exact Hok1].
  simpl in Hok1. unfold bind at 1, lift.
  destruct (convert_lxmf_message_to_dict m) as [d | e]; [| exact Hok1].
  unfold bind at 1, json_dumps.
  destruct (json_serializable (message_event _ d)); [| exact Hok1].
  now rewrite (only_writes_db _ _ (websocket_broadcast_only_writes _ w1)).
Qed.

Lemma on_lxmf_delivery_ledger m (w : World) :
  ledger_ok (db w) -> ledger_ok (db (snd (on_lxmf_delivery m w))).
Proof.
  intros Hok. unfold on_lxmf_delivery, try_except.
  match goal with
  | |- context [match ?body w with _ => _ end] =>
      assert (Hbody : ledger_ok (db (snd (body w))))
  end.
  { unfold bind at 1, lift.
    destruct (convert_lxmf_message_to_dict m) as [d | e]; [| exact Hok].
    unfold bind at 1, json_dumps.
    destruct (json_serializable (d_fields d)); [| exact Hok].
    unfold bind at 1.
    pose proof (save_ledger (values d (d_fields d)) w Hok) as Hok1.
    destruct (save (values d (d_fields d)) w) as [[[] | e] w1];
      [| exact Hok1].
    simpl in Hok1. unfold bind at 1.
    unfold bind at 1.
    destruct (json_serializable (message_event _ d)); [| exact Hok1].
    now rewrite (only_writes_db _ _ (websocket_broadcast_only_writes _ w1)). }
  match goal with
  | |- context [match ?body w with _ => _ end] =>
      destruct (body w) as [[[] | e] w1]
  end; exact Hbody.
Qed.

(** C4. A request that names A and B gets status 200 and the rows of the
    ledger that run between A and B in either direction, each as often as
    the ledger holds it and no other row, ordered by rising id; the ledger
    is not changed.  As the ledger stores its rows by rising id, that is the
    order in which they were first stored: oldest first. *)
Theorem api_v1_lxmf_messages_between
  (query : list (string * string)) (a b : string) (w : World) :
  lookup query "source_hash" = Some a ->
  lookup query "destination_hash" = Some b ->
  exists rows w',
    api_v1_lxmf_messages query w
    = (Return (json_response
                 (PyDict [("lxmf_messages",
                           PyList (map lxmf_message_json rows))]) 200), w')
    /\ db w' = db w
    /\ (forall row, In row rows <-> In row (db w) /\ runs_between a b row)
    /\ Permutation rows (filter (database.between a b) (db w))
    /\ StronglySorted not_younger rows
    /\ (rising_ids (db w) -> rows = filter (database.between a b) (db w)).
Proof.
  intros Ha Hb.
  exists (database.select_between a b (db w)),
         (set_db (db w) (database.SELECT a b) w).
  unfold api_v1_lxmf_messages. rewrite Ha, Hb.
  split; [reflexivity |]. split; [reflexivity |].
  unfold database.select_between.
  split; [| split; [| split]].
  - intros row. rewrite <- between_spec, <- filter_In. split; intros H.
    + eapply Permutation_in; [apply order_by_id_perm | exact H].
    + eapply Permutation_in; [symmetry; apply order_by_id_perm | exact H].
  - apply order_by_id_perm.
  - apply order_by_id_sorted.
  - intros Hr. apply order_by_id_rising. now apply filter_rising.
Qed.

Lemma api_v1_lxmf_messages_between_witness :
  exists first second w',
    api_v1_lxmf_messages
      [("source_hash", "0a"); ("destination_hash", "0b")] Sample.conversation
    = (Return (json_response
                 (PyDict [("lxmf_messages",
                           PyList [lxmf_message_json first;
                                   lxmf_message_json second])]) 200), w')
    /\ database.hash first = "01" /\ database.source_hash first = "0a"
    /\ database.hash second = "03" /\ database.source_hash second = "0b".
Proof.
  destruct (api_v1_lxmf_messages_between
              [("source_hash", "0a"); ("destination_hash", "0b")]
              "0a" "0b" Sample.conversation)
    as (rows & w' & Hrun & _ & _ & _ & _ & Hrows).
  - reflexivity.
  - reflexivity.
  - rewrite Hrows in Hrun.
    + eexists _, _, w'. split; [exact Hrun |]. repeat split.
    + repeat constructor.
Defined.

(** C10. A request without [source_hash], or with it but without
    [destination_hash], is answered with status 422 and a message that names
    a parameter that is missing; no statement reaches the ledger and nothing
    at all is changed. *)
Theorem api_v1_lxmf_messages_missing_parameter
  (query : list (string * string)) (w : World) :
  lookup query "source_hash" = None
  \/ lookup query "destination_hash" = None ->
  exists name,
    api_v1_lxmf_messages query w
    = (Return {| status := 422;
                 body := PyDict [("message",
                                  PyStr (name ++ " is required")%string)] |},
       w)
    /\ (name = "source_hash" \/ name = "destination_hash")
    /\ lookup query name = None.
Proof.
  intros Hmissing. unfold api_v1_lxmf_messages.
  destruct (lookup query "source_hash") as [a |] eqn:Ha.
  - destruct Hmissing as [Hs | Hd]; [discriminate |].
    rewrite Hd. exists "destination_hash". repeat split; auto.
  - exists "source_hash". repeat split; auto.
Qed.

Lemma api_v1_lxmf_messages_missing_parameter_witness :
  api_v1_lxmf_messages [("source_hash", "0a")] Sample.conversation
  = (Return {| status := 422;
               body := PyDict [("message",
                                PyStr "destination_hash is required")] |},
     Sample.conversation).
Proof.
  destruct (api_v1_lxmf_messages_missing_parameter
              [("source_hash", "0a")] Sample.conversation)
    as (name & Hrun & [-> | ->] & Hname).
  - now right.
  - discriminate Hname.
  - exact Hrun.
Defined.

(** ** Downloads *)

Lemma bind_lift {A B} (a : A) (k : A -> M B) :
  bind (lift (Return a)) k = k a.
Proof. reflexivity. Qed.

(** without an identity the download is the request for a path followed by
    the failure continuation *)
Lemma download_without_identity (self : NomadnetDownloader.t) (w : World) :
  known (known_destinations w) (NomadnetDownloader.destination_hash self)
  = None ->
  NomadnetDownloader.download self w
  = NomadnetDownloader.on_download_failure self "identity not found"
      (set_network
         (network w
          ++ [RNS.request_path (NomadnetDownloader.destination_hash self)])
         w).
Proof.
  intros Hunknown.
  unfold NomadnetDownloader.download, bind, call, modify, recall, gets.
  simpl. now rewrite Hunknown.
Qed.

Lemma init_without_identity h path on_success on_failure on_progress timeout
  (w : World) :
  known (known_destinations w) h = None ->
  exists self,
    NomadnetDownloader.init h path on_success on_failure on_progress
      timeout true w
    = (on_failure "identity not found" ;; ret self)
        (set_network (network w ++ [RNS.request_path h]) w).
Proof.
  intros Hunknown. eexists. unfold NomadnetDownloader.init.
  unfold bind at 1. rewrite download_without_identity by exact Hunknown.
  reflexivity.
Qed.

(** C5. When no identity is known for the destination as the download
    starts, the job asks for a path and at once calls its failure
    continuation with "identity not found": no link is opened and nothing
    is asked again.  This holds for the downloader itself and for the page
    and the file downloader, which start the download when they are
    built. *)
Theorem download_identity_not_found (h : Py.bytes) (w : World) :
  known (known_destinations w) h = None ->
  let w' := set_network (network w ++ [RNS.request_path h]) w in
  (forall self,
      NomadnetDownloader.destination_hash self = h ->
      NomadnetDownloader.download self w
      = NomadnetDownloader.on_download_failure self "identity not found" w')
  /\ (forall page_path on_success on_failure on_progress timeout,
        exists self,
          NomadnetPageDownloader.init h page_path on_success on_failure
            on_progress timeout true w
          = (on_failure "identity not found" ;; ret self) w')
  /\ (forall file_path on_success on_failure on_progress timeout,
        exists self,
          NomadnetFileDownloader.init h file_path on_success on_failure
            on_progress timeout true w
          = (on_failure "identity not found" ;; ret self) w').
Proof.
  intros Hunknown w'. split; [| split].
  - intros self <-. now apply download_without_identity.
  - intros path on_success on_failure on_progress timeout.
    unfold NomadnetPageDownloader.init.
    destruct (init_without_identity h path
                (NomadnetPageDownloader.on_download_success on_success)
                (NomadnetPageDownloader.on_download_failure on_failure)
                on_progress timeout w Hunknown) as [self Hinit].
    exists self. exact Hinit.
  - intros path on_success on_failure on_progress timeout.
    unfold NomadnetFileDownloader.init.
    destruct (init_without_identity h path
                (NomadnetFileDownloader.on_download_success on_success)
                (NomadnetFileDownloader.on_download_failure on_failure)
                on_progress timeout w Hunknown) as [self Hinit].
    exists self. exact Hinit.
Qed.

Lemma download_identity_not_found_witness :
  NomadnetDownloader.download Sample.page_job Sample.fresh
  = (Return tt,
     set_stdout ["failed: identity not found"]
       (set_network [RNS.request_path [x12; x34]] Sample.fresh)).
Proof.
  destruct (download_identity_not_found [x12; x34] Sample.fresh eq_refl)
    as (Hjob & _).
  rewrite (Hjob Sample.page_job eq_refl). reflexivity.
Defined.

(** the viewer that asked for a page is told so: the error event carries
    the reason *)
Lemma nomadnet_page_download_identity_not_found
  (client_send : Session -> PyVal -> M unit) (client : Session)
  (data request hex_hash page_path : PyVal) (h : Py.bytes) (w : World) :
  subscript data "nomadnet_page_download" = Return request ->
  subscript request "destination_hash" = Return hex_hash ->
  subscript request "page_path" = Return page_path ->
  fromhex hex_hash = Return h ->
  known (known_destinations w) h = None ->
  nomadnet_page_download client_send client data w
  = (send_download_event client_send client
       (PyDict [("type", PyStr "nomadnet.page.download");
                ("nomadnet_page_download",
                 PyDict [("status", PyStr "error");
                         ("failure_reason", PyStr "identity not found");
                         ("destination_hash", PyStr (Py.hex h));
                         ("page_path", page_path)])]) ;;
     ret tt)
      (set_network (network w ++ [RNS.request_path h]) w).
Proof.
  intros Hrequest Hhash Hpath Hhex Hunknown.
  unfold nomadnet_page_download.
  rewrite Hrequest, bind_lift, Hhash, bind_lift, bind_lift, Hpath, bind_lift,
    Hhex, bind_lift.
  unfold NomadnetPageDownloader.init.
  match goal with
  | |- context [NomadnetDownloader.init h page_path ?s ?f ?p None true] =>
      destruct (init_without_identity h page_path s f p None w Hunknown)
        as [self Hinit]
  end.
  unfold bind at 1. rewrite Hinit.
  unfold NomadnetPageDownloader.on_download_failure.
  unfold bind.
  match goal with
  | |- context [send_download_event client_send client ?e ?w'] =>
      destruct (send_download_event client_send client e w') as [[[] | x] w'']
  end; reflexivity.
Qed.

(** ** The callbacks *)

Lemma print_returns line w : exists a w', print line w = (Return a, w').
Proof. now eexists _, _. Qed.

(** the inbound delivery callback never raises *)
Lemma on_lxmf_delivery_guarded (message : LXMF.LXMessage) (w : World) :
  exists w', on_lxmf_delivery message w = (Return tt, w').
Proof.
  unfold on_lxmf_delivery.
  match goal with
  | |- context [try_except ?m ?h w] =>
      destruct (try_except_returns m h
                  (fun e w => ex_intro _ tt (ex_intro _ _ eq_refl)) w)
        as ([] & w' & H)
  end.
  now exists w'.
Qed.

(** the registered announce handler never raises *)
Lemma announce_handler_guarded h identity app_data (w : World) :
  exists w', announce_handler h identity app_data w = (Return tt, w').
Proof.
  unfold announce_handler, LXMFAnnounceHandler.received_announce.
  destruct (try_except_returns
              (on_lxmf_announce_received h identity app_data)
              (fun _ => ret tt)
              (fun e w => ex_intro _ tt (ex_intro _ w eq_refl)) w)
    as ([] & w' & H).
  now exists w'.
Qed.

(** a closing session anywhere in the registry makes the broadcast raise *)
Lemma websocket_broadcast_raises data c (w : World) :
  In c (websocket_clients w) ->
  is_closing w c = true ->
  fst (websocket_broadcast data w) = Raise ConnectionResetError.
Proof.
  intros Hin Hc. rewrite websocket_broadcast_unfold.
  destruct (first_closing w (websocket_clients w))
    as [Hopen | (pre & x & post & Hsplit & Hpre & Hx)].
  - rewrite (Hopen c Hin) in Hc. discriminate.
  - rewrite Hsplit. now rewrite send_all_closing.
Qed.

(** the unguarded callback raises for every outbound message, whenever a
    registered session is closing *)
Lemma on_lxmf_sending_state_updated_raises m c (w : World) :
  In c (websocket_clients w) ->
  is_closing w c = true ->
  exists e, fst (on_lxmf_sending_state_updated m w) = Raise e.
Proof.
  intros Hin Hc.
  unfold on_lxmf_sending_state_updated, db_upsert_lxmf_message, bind, lift,
    gets, json_dumps, execute_upsert, modify.
  destruct (convert_lxmf_message_to_dict m) as [d | e]; [| now exists e].
  destruct (json_serializable (d_fields d)); [| now exists TypeError].
  destruct (json_serializable (message_event _ d)); [| now exists TypeError].
  match goal with
  | |- context [websocket_broadcast ?data ?w'] =>
      pose proof (websocket_broadcast_raises data c w' Hin Hc) as Hraise;
      destruct (websocket_broadcast data w') as [[[] | e] w'']
  end.
  - discriminate Hraise.
  - now exists e.
Qed.

(** C6, where the code departs from it: the callbacks for an outbound
    message have no guard.  With a viewer whose connection is closing, the
    state-updated and the failed callback both raise into the network layer;
    so they do for a message whose title is not UTF-8.  The inbound
    callback, given the same inputs, returns. *)
Theorem on_lxmf_sending_state_updated_escapes :
  fst (on_lxmf_sending_state_updated Sample.sending Sample.one_closing)
  = Raise ConnectionResetError
  /\ fst (on_lxmf_sending_failed Sample.sending Sample.one_closing)
     = Raise ConnectionResetError
  /\ fst (on_lxmf_sending_state_updated Sample.garbled Sample.fresh)
     = Raise UnicodeDecodeError
  /\ fst (on_lxmf_delivery Sample.sending Sample.one_closing) = Return tt
  /\ fst (on_lxmf_delivery Sample.garbled Sample.fresh) = Return tt.
Proof. repeat split. Qed.

(** C7, where the code departs from it: an announce whose label is not
    UTF-8 is not delivered with a null label, it is not delivered at all.
    The decoding raises, the handler swallows the exception, and no viewer
    gets a frame; the same announce with the label "Alice" reaches all
    three viewers. *)
Theorem announce_undecodable_dropped :
  announce_handler [x12; x34] Sample.somebody (Some [xff]) Sample.three_viewers
  = (Return tt,
     set_network [RNS.log "Received an announce from <1234>"]
       Sample.three_viewers)
  /\ wire (snd (announce_handler [x12; x34] Sample.somebody
                  (Some (Py.encode_utf8 "Alice")) Sample.three_viewers))
     = frames_to [1; 2; 3]%nat
         (announce_event [x12; x34] (Some "Alice") 1710000000).
Proof. split; reflexivity. Qed.

(** so it is for every label that is not UTF-8, in every world *)
Lemma announce_undecodable_never_delivered h identity label (w : World) :
  Py.decode_utf8 label = None ->
  announce_handler h identity (Some label) w
  = (Return tt,
     set_network
       (network w
        ++ [RNS.log ("Received an announce from " ++ RNS.prettyhexrep h)])
       w).
Proof.
  intros Hlabel.
  unfold announce_handler, LXMFAnnounceHandler.received_announce, try_except,
    on_lxmf_announce_received, bind, call, modify, lift, decode.
  now rewrite Hlabel.
Qed.

(** the helper that the known peers go through does what the announce
    misses *)
Lemma convert_app_data_to_string_total (app_data : option Py.bytes) :
  convert_app_data_to_string app_data
  = match app_data with
    | Some b => Py.decode_utf8 b
    | None => None
    end.
Proof.
  destruct app_data as [b |]; [| reflexivity].
  unfold convert_app_data_to_string, decode. now destruct (Py.decode_utf8 b).
Qed.

Lemma known_peer_undecodable h t key :
  known_peer (h, {| RNS.last_announce := t; RNS.public_key := key;
                    RNS.app_data := Some [xff] |})
  = PyDict [("destination_hash", PyStr (Py.hex h));
            ("app_data", PyNone);
            ("last_announce_timestamp", PyFloat t)].
Proof. reflexivity. Qed.

(** ** The progress of a message *)

(** [div_half_even] returns an integer nearest to the quotient, and the even
    one of the two when the quotient is half way *)
Lemma div_half_even_nearest (num den : Z) :
  0 < den ->
  2 * Z.abs (num - Py.div_half_even num den * den) <= den
  /\ (2 * Z.abs (num - Py.div_half_even num den * den) = den ->
      Z.even (Py.div_half_even num den) = true).
Proof.
  intros Hden. unfold Py.div_half_even.
  pose proof (Z.div_mod num den ltac:(lia)) as Hdiv.
  pose proof (Z.mod_pos_bound num den Hden) as Hmod.
  set (q := num / den) in *. set (r := num mod den) in *.
  destruct (Z.ltb_spec (2 * r) den) as [Hlow | Hhigh].
  - split; [lia | intros; lia].
  - destruct (Z.ltb_spec den (2 * r)) as [Hup | Hhalf].
    + split; [lia | intros; lia].
    + destruct (Z.even q) eqn:Hq.
      * split; [lia | intros; exact Hq].
      * split; [lia |]. intros _.
        replace (q + 1) with (Z.succ q) by lia.
        rewrite Z.even_succ, <- Z.negb_even, Hq. reflexivity.
Qed.

(** [round2] keeps a value without fractional bits and otherwise returns
    the double for a nearest number of hundredths *)
Lemma round2_nearest_hundredth (x : float) (s : bool) (m : positive) (e : Z) :
  Prim2SF x = S754_finite s m e ->
  (0 <= e -> Py.round2 x = x)
  /\ (e < 0 ->
      exists n,
        2 * Z.abs (100 * Z.pos m - n * 2 ^ (- e)) <= 2 ^ (- e)
        /\ (2 * Z.abs (100 * Z.pos m - n * 2 ^ (- e)) = 2 ^ (- e) ->
            Z.even n = true)
        /\ Py.round2 x = Py.of_hundredths s n).
Proof.
  intros Hx. unfold Py.round2. rewrite Hx. split; intros He.
  - apply Z.leb_le in He. now rewrite He.
  - exists (Py.hundredths m e).
    assert (Hpow : 0 < 2 ^ (- e)) by (apply Z.pow_pos_nonneg; lia).
    destruct (div_half_even_nearest (100 * Z.pos m) (2 ^ (- e)) Hpow)
      as [Hnear Heven].
    repeat split; try assumption.
    destruct (Z.leb_spec 0 e); [lia | reflexivity].
Qed.

(** C8. The record of a message that is rendered for the viewers carries as
    its progress the stored fraction times 100, rounded to two decimals: the
    product itself when it has no fractional bits, and otherwise the double
    for a number of hundredths nearest to it.  For the fraction 0.4567 that
    is 45.67. *)
Theorem progress_rendered_as_percentage
  (lxmf_message : LXMF.LXMessage) (d : MessageDict) :
  convert_lxmf_message_to_dict lxmf_message = Return d ->
  let percentage := (LXMF.progress lxmf_message * 100)%float in
  subscript (message_dict_value d) "progress" = Return (PyFloat (d_progress d))
  /\ d_progress d = Py.round2 percentage
  /\ (forall s m e,
        Prim2SF percentage = S754_finite s m e ->
        (0 <= e -> d_progress d = percentage)
        /\ (e < 0 ->
            exists n,
              2 * Z.abs (100 * Z.pos m - n * 2 ^ (- e)) <= 2 ^ (- e)
              /\ d_progress d = Py.of_hundredths s n))
  /\ (LXMF.progress lxmf_message = 0.4567%float ->
      d_progress d = 45.67%float).
Proof.
  intros Hd percentage.
  destruct (convert_lxmf_message_to_dict_returns _ _ Hd)
    as (_ & _ & Hprogress & _).
  fold percentage in Hprogress.
  split; [reflexivity |]. split; [exact Hprogress |]. split.
  - intros s m e Hsf. rewrite Hprogress.
    destruct (round2_nearest_hundredth _ _ _ _ Hsf) as [Hkeep Hround].
    split; [exact Hkeep |].
    intros He. destruct (Hround He) as (n & Hnear & _ & Hn).
    now exists n.
  - intros Hfraction. rewrite Hprogress. unfold percentage.
    rewrite Hfraction. reflexivity.
Qed.

Lemma progress_rendered_as_percentage_witness :
  exists d,
    convert_lxmf_message_to_dict Sample.sending = Return d
    /\ d_hash d = "abcd"
    /\ subscript (message_dict_value d) "progress" = Return (PyFloat 45.67).
Proof.
  eexists. split; [reflexivity |]. split; [reflexivity |].
  match goal with
  | |- subscript (message_dict_value ?d) _ = _ =>
      destruct (progress_rendered_as_percentage Sample.sending d eq_refl)
        as (Hkey & _ & _ & Hvalue)
  end.
  rewrite Hkey, (Hvalue eq_refl). reflexivity.
Defined.

(* ===================================================================== *)
(** * Further properties of the code                                      *)
(* ===================================================================== *)

(** ** The wire shape of a message *)

(** X1. The six states that the program knows are rendered by six different
    names, and "unknown" is the name of the codes it does not know, and of
    nothing else: two messages get the same name only when they are in the
    same state or both in a state that is not known. *)
Theorem convert_lxmf_state_to_string_faithful (m1 m2 : LXMF.LXMessage) :
  (convert_lxmf_state_to_string m1 = convert_lxmf_state_to_string m2 ->
   LXMF.state m1 = LXMF.state m2
   \/ exists c1 c2, LXMF.state m1 = LXMF.OTHER c1
                    /\ LXMF.state m2 = LXMF.OTHER c2)
  /\ (convert_lxmf_state_to_string m1 = "unknown"
      <-> exists c, LXMF.state m1 = LXMF.OTHER c).
Proof.
  unfold convert_lxmf_state_to_string. split.
  - destruct (LXMF.state m1), (LXMF.state m2); intros H;
      try discriminate H; try (now left); right; eauto.
  - split.
    + destruct (LXMF.state m1); intros H; try discriminate H; eauto.
    + intros [c ->]. reflexivity.
Qed.

Lemma mapO_attachments (l : list (string * Py.bytes)) :
  mapO convert_file_attachment (map attachment_value l)
  = Return (map attachment_dict l).
Proof.
  induction l as [| a l IH]; [reflexivity |].
  cbn [map mapO]. rewrite IH. reflexivity.
Qed.

(** X2. Well formed file attachments, each a name and its bytes, are
    rendered in their order as dictionaries with the name and the base64
    text of the bytes, under the key "file_attachments"; an image is
    rendered under "image" the same way; and a field of any other type
    leaves the rendered fields as they are. *)
Theorem convert_field_well_formed
  (fields : list (string * PyVal)) (attachments : list (string * Py.bytes))
  (image_type : string) (image : Py.bytes) (code : Z) (value : PyVal) :
  convert_field fields LXMF.FIELD_FILE_ATTACHMENTS
    (PyList (map attachment_value attachments))
  = Return (setitem fields "file_attachments"
              (PyList (map attachment_dict attachments)))
  /\ convert_field fields LXMF.FIELD_IMAGE
       (PyList [PyStr image_type; PyBytes image])
     = Return (setitem fields "image"
                 (PyDict [("image_type", PyStr image_type);
                          ("image_bytes", PyStr (Py.b64encode image))]))
  /\ convert_field fields (LXMF.FIELD_OTHER code) value = Return fields.
Proof.
  split; [| split; reflexivity].
  unfold convert_field. cbn [iterate bindO].
  rewrite mapO_attachments. reflexivity.
Qed.

(** X3. A message all of whose fields are of types that the conversion does
    not handle is converted whenever its title and content are UTF-8, and
    its rendered fields are empty. *)
Theorem convert_lxmf_message_to_dict_other_fields
  (m : LXMF.LXMessage) (title content : string) :
  Forall other_field (LXMF.fields m) ->
  Py.decode_utf8 (LXMF.title m) = Some title ->
  Py.decode_utf8 (LXMF.content m) = Some content ->
  exists d,
    convert_lxmf_message_to_dict m = Return d
    /\ d_fields d = PyDict []
    /\ d_title d = title /\ d_content d = content
    /\ json_serializable (message_dict_value d) = true.
Proof.
  intros Hfields Htitle Hcontent.
  assert (Hconv : forall acc, convert_fields acc (LXMF.fields m) = Return acc).
  { induction Hfields as [| [t v] l [code Ht] _ IH]; intros acc;
      [reflexivity |].
    simpl in Ht. subst t. cbn [convert_fields]. cbn [convert_field bindO].
    apply IH. }
  unfold convert_lxmf_message_to_dict, LXMF.get_fields, decode.
  rewrite Hconv, Htitle, Hcontent. cbn [bindO].
  eexists. split; [reflexivity |]. repeat split.
Qed.

Lemma convert_lxmf_message_to_dict_other_fields_witness :
  exists d,
    convert_lxmf_message_to_dict
      {| LXMF.hash := [xab; xcd];
         LXMF.source_hash := [x12; x34];
         LXMF.destination_hash := [xc3; xd4];
         LXMF.incoming := true;
         LXMF.state := LXMF.DELIVERED;
         LXMF.progress := 1%float;
         LXMF.title := Py.encode_utf8 "hi";
         LXMF.content := Py.encode_utf8 "there";
         LXMF.fields := [(LXMF.FIELD_OTHER 9, PyInt 3)];
         LXMF.timestamp := 1710000000%float |} = Return d
    /\ d_fields d = PyDict [] /\ d_title d = "hi".
Proof.
  edestruct (convert_lxmf_message_to_dict_other_fields
               {| LXMF.hash := [xab; xcd];
                  LXMF.source_hash := [x12; x34];
                  LXMF.destination_hash := [xc3; xd4];
                  LXMF.incoming := true;
                  LXMF.state := LXMF.DELIVERED;
                  LXMF.progress := 1%float;
                  LXMF.title := Py.encode_utf8 "hi";
                  LXMF.content := Py.encode_utf8 "there";
                  LXMF.fields := [(LXMF.FIELD_OTHER 9, PyInt 3)];
                  LXMF.timestamp := 1710000000%float |} "hi" "there")
    as (d & Hd & Hf & Ht & _).
  - repeat constructor. now exists 9.
  - reflexivity.
  - reflexivity.
  - exists d. repeat split; assumption.
Defined.

(** X4. An attachment whose content is not [bytes], or that has no content
    at all, makes the conversion of the whole message raise, whatever the
    other attachments and fields are. *)
Theorem convert_field_malformed_attachment
  (fields : list (string * PyVal)) (before after : list (string * Py.bytes))
  (name : PyVal) (text : string) :
  convert_field fields LXMF.FIELD_FILE_ATTACHMENTS
    (PyList (map attachment_value before
             ++ PyList [name; PyStr text] :: map attachment_value after))
  = Raise TypeError
  /\ convert_field fields LXMF.FIELD_FILE_ATTACHMENTS
       (PyList (map attachment_value before
                ++ PyList [name] :: map attachment_value after))
     = Raise IndexError.
Proof.
  assert (Hstop : forall bad e,
             convert_file_attachment bad = Raise e ->
             mapO convert_file_attachment
               (map attachment_value before
                ++ bad :: map attachment_value after) = Raise e).
  { intros bad e Hbad. induction before as [| a l IH].
    - cbn [map app mapO]. now rewrite Hbad.
    - cbn [map app mapO]. rewrite IH. reflexivity. }
  split; unfold convert_field; cbn [iterate bindO].
  - now rewrite (Hstop (PyList [name; PyStr text]) TypeError eq_refl).
  - now rewrite (Hstop (PyList [name]) IndexError eq_refl).
Qed.

(** ** Hexadecimal text *)

Lemma fromhex_hex_byte (b : byte) (s : string) :
  fromhex_chars (Py.hex_byte b ++ s)%string
  = let+ rest := fromhex_chars s in Return (b :: rest).
Proof. destruct b; reflexivity. Qed.

(** [bytes.fromhex(b.hex())] is [b] *)
Lemma fromhex_hex (b : Py.bytes) : fromhex (PyStr (Py.hex b)) = Return b.
Proof.
  unfold fromhex. induction b as [| x r IH]; [reflexivity |].
  cbn [Py.hex]. rewrite fromhex_hex_byte, IH. reflexivity.
Qed.

Lemma hex_injective (a b : Py.bytes) : Py.hex a = Py.hex b -> a = b.
Proof.
  intros H. pose proof (fromhex_hex a) as Ha. rewrite H, fromhex_hex in Ha.
  now injection Ha.
Qed.

(** ** Statements, continued *)

Lemma bind_returns {A B} (m : M A) (k : A -> M B) w b w' :
  bind m k w = (Return b, w') ->
  exists a w1, m w = (Return a, w1) /\ k a w1 = (Return b, w').
Proof.
  unfold bind. destruct (m w) as [[a | e] w1]; [| discriminate].
  intros H. now exists a, w1.
Qed.

Lemma for_each_app {A} (l1 l2 : list A) (body : A -> M unit) (w : World) :
  for_each (l1 ++ l2) body w = (for_each l1 body ;; for_each l2 body) w.
Proof.
  revert w. induction l1 as [| a l1 IH]; intros w; [reflexivity |].
  cbn [app for_each]. unfold bind.
  destruct (body a w) as [[[] | e] w1]; [| reflexivity].
  rewrite IH. reflexivity.
Qed.

Lemma websocket_broadcast_open data (w : World) :
  all_open w ->
  websocket_broadcast data w
  = (Return tt,
     set_wire (wire w ++ frames_to (websocket_clients w) data) w).
Proof.
  intros Hopen. rewrite websocket_broadcast_unfold. now apply send_all_open.
Qed.

Lemma message_event_serializable type (d : MessageDict) :
  json_serializable (message_event type d) = json_serializable (d_fields d).
Proof.
  unfold message_event, message_dict_value. cbn.
  now rewrite !andb_true_r.
Qed.

(** ** Inbound deliveries *)

(** X5. An inbound message that cannot be converted, be it for a title or a
    content that is not UTF-8 or for a malformed attachment, is dropped: the
    callback returns, one line is printed, and neither the ledger nor any
    viewer sees anything of it. *)
Theorem on_lxmf_delivery_unconvertible
  (message : LXMF.LXMessage) (e : exn) (w : World) :
  convert_lxmf_message_to_dict message = Raise e ->
  on_lxmf_delivery message w
  = (Return tt,
     set_stdout (stdout w ++ [("lxmf_delivery error: " ++ str w e)%string])
       w).
Proof.
  intros Hconvert. unfold on_lxmf_delivery, try_except.
  unfold bind at 1, lift. rewrite Hconvert. reflexivity.
Qed.

Lemma on_lxmf_delivery_unconvertible_witness :
  on_lxmf_delivery Sample.garbled Sample.three_viewers
  = (Return tt,
     set_stdout ["lxmf_delivery error: UnicodeDecodeError"]
       Sample.three_viewers).
Proof.
  exact (on_lxmf_delivery_unconvertible
           Sample.garbled UnicodeDecodeError Sample.three_viewers eq_refl).
Defined.



(** X7. An inbound message whose hash the ledger already holds is not
    stored again and not passed on: the insert is refused, the callback
    returns after printing the error, the ledger keeps its rows as they
    were, and no viewer gets a frame. *)
Theorem on_lxmf_delivery_duplicate
  (message : LXMF.LXMessage) (d : MessageDict) (w : World) :
  convert_lxmf_message_to_dict message = Return d ->
  json_serializable (d_fields d) = true ->
  existsb (database.has_hash (d_hash d)) (db w) = true ->
  on_lxmf_delivery message w
  = (Return tt,
     set_stdout
       (stdout w ++ [("lxmf_delivery error: " ++ str w IntegrityError)%string])
       (set_db (db w) (database.INSERT (d_hash d)) w)).
Proof.
  intros Hconvert Hjson Hheld.
  unfold on_lxmf_delivery, try_except.
  unfold bind at 1, lift. rewrite Hconvert.
  unfold bind at 1, json_dumps. rewrite Hjson.
  unfold bind at 1, save, database.insert. cbn [database.v_hash values].
  rewrite Hheld. reflexivity.
Qed.

Lemma on_lxmf_delivery_duplicate_witness :
  exists w1 w2,
    on_lxmf_delivery Sample.delivered Sample.three_viewers = (Return tt, w1)
    /\ on_lxmf_delivery Sample.delivered w1 = (Return tt, w2)
    /\ db w2 = db w1 /\ wire w2 = wire w1
    /\ stdout w2 = ["lxmf_delivery error: IntegrityError"].
Proof.
  eassert (Hd : convert_lxmf_message_to_dict Sample.delivered = Return _)
    by (vm_compute; reflexivity).
  eexists. eexists. split; [reflexivity |].
  split.
  - match goal with
    | |- on_lxmf_delivery _ ?w1 = _ =>
        rewrite (on_lxmf_delivery_duplicate Sample.delivered _ w1
                   Hd eq_refl eq_refl)
    end.
    reflexivity.
  - repeat split.
Defined.

(** ** Outbound state updates *)

Lemma upsert_frame now v updated (t : database.Table) h :
  h <> database.v_hash v ->
  filter (database.has_hash h) (database.upsert now v updated t)
  = filter (database.has_hash h) t.
Proof.
  intros Hne. unfold database.upsert.
  assert (Hother : forall r : database.LxmfMessage,
             database.hash r = database.v_hash v ->
             database.has_hash h r = false).
  { intros r Hr. unfold database.has_hash. apply String.eqb_neq. congruence. }
  destruct (existsb (database.has_hash (database.v_hash v)) t).
  - induction t as [| r t IH]; [reflexivity |]. cbn [map filter].
    destruct (database.has_hash (database.v_hash v) r) eqn:Hr.
    + apply has_hash_spec in Hr.
      rewrite (Hother r Hr), (Hother (database.update_row v updated r) eq_refl).
      exact IH.
    + now rewrite IH.
  - rewrite filter_app. cbn [filter].
    rewrite (Hother (database.new_row now v (Some updated) t) eq_refl).
    apply app_nil_r.
Qed.

(** X8. The state-updated callback writes the ledger before it sends
    anything: for a message that converts, the ledger holds the upserted
    row whether or not the broadcast goes through, and that row has the
    state and the progress that the event carries.  When no viewer refuses
    the event, the callback returns and every registered viewer has got the
    event once. *)
Theorem on_lxmf_sending_state_updated_persists
  (lxmf_message : LXMF.LXMessage) (d : MessageDict) (w : World) :
  convert_lxmf_message_to_dict lxmf_message = Return d ->
  json_serializable (d_fields d) = true ->
  unique_hashes (db w) ->
  let t' := database.upsert (datetime_now w) (values d (d_fields d))
              (datetime_now w) (db w) in
  let stored := set_db t' (database.UPSERT (d_hash d)) w in
  db (snd (on_lxmf_sending_state_updated lxmf_message w)) = t'
  /\ (exists row,
        filter (database.has_hash (d_hash d)) t' = [row]
        /\ database.state row = d_state d
        /\ database.progress row = d_progress d)
  /\ (all_open w ->
      on_lxmf_sending_state_updated lxmf_message w
      = (Return tt,
         set_wire (wire w ++ frames_to (websocket_clients w)
                             (message_event "lxmf_message_state_updated" d))
           stored)).
Proof.
  intros Hconvert Hjson Hunique t' stored.
  assert (Hrun : on_lxmf_sending_state_updated lxmf_message w
                 = websocket_broadcast
                     (message_event "lxmf_message_state_updated" d) stored).
  { unfold on_lxmf_sending_state_updated, db_upsert_lxmf_message.
    unfold bind at 1. unfold bind at 1, lift. rewrite Hconvert.
    unfold bind at 1, json_dumps. rewrite Hjson.
    unfold bind at 1, gets. unfold execute_upsert, modify.
    cbn [values database.v_hash]. fold t'. fold stored.
    unfold bind at 1. unfold bind at 1.
    now rewrite message_event_serializable, Hjson. }
  split; [| split].
  - rewrite Hrun.
    now rewrite (only_writes_db _ _ (websocket_broadcast_only_writes _ stored)).
  - destruct (upsert_row (datetime_now w) (values d (d_fields d))
                (datetime_now w) (db w) Hunique)
      as (row & Hrow & Hold & Hnew).
    exists row. split; [exact Hrow |].
    destruct (existsb (database.has_hash
                         (database.v_hash (values d (d_fields d)))) (db w)).
    + destruct (Hold eq_refl) as (old & _ & ->). split; reflexivity.
    + rewrite (Hnew eq_refl). split; reflexivity.
  - intros Hopen. rewrite Hrun.
    exact (websocket_broadcast_open _ stored Hopen).
Qed.

Lemma on_lxmf_sending_state_updated_persists_witness :
  exists row,
    db (snd (on_lxmf_sending_state_updated Sample.sending Sample.one_closing))
    = [row]
    /\ database.state row = "sending"
    /\ database.progress row = 45.67%float.
Proof.
  eassert (Hd : convert_lxmf_message_to_dict Sample.sending = Return _)
    by (vm_compute; reflexivity).
  destruct (on_lxmf_sending_state_updated_persists
              Sample.sending _ Sample.one_closing Hd)
    as (Hdb & _ & _).
  - reflexivity.
  - constructor.
  - rewrite Hdb. eexists. split; [reflexivity |]. split; reflexivity.
Defined.

(** X9. An upsert touches the row of its own hash only: the rows of every
    other hash are what they were, in id, content and order, and the ledger
    grows by one row when the hash is new and by none when it is held. *)
Theorem db_upsert_lxmf_message_frame
  (lxmf_message : LXMF.LXMessage) (w w' : World) :
  db_upsert_lxmf_message lxmf_message w = (Return tt, w') ->
  let h := Py.hex (LXMF.hash lxmf_message) in
  (forall other, other <> h ->
     filter (database.has_hash other) (db w')
     = filter (database.has_hash other) (db w))
  /\ List.length (db w')
     = (List.length (db w)
        + if existsb (database.has_hash h) (db w) then 0 else 1)%nat.
Proof.
  intros Hrun h.
  apply db_upsert_lxmf_message_returns in Hrun as (d & Hd & ->).
  destruct (convert_lxmf_message_to_dict_returns _ _ Hd) as (Hh & _).
  fold h in Hh. cbn [db set_db]. split.
  - intros other Hne. apply upsert_frame. cbn [values database.v_hash].
    now rewrite Hh.
  - unfold database.upsert. cbn [values database.v_hash]. rewrite Hh.
    destruct (existsb (database.has_hash h) (db w)).
    + rewrite length_map. lia.
    + rewrite length_app. reflexivity.
Qed.

Lemma db_upsert_lxmf_message_frame_witness :
  exists w',
    db_upsert_lxmf_message Sample.delivered Sample.conversation
    = (Return tt, w')
    /\ filter (database.has_hash "01") (db w')
       = filter (database.has_hash "01") (db Sample.conversation)
    /\ List.length (db w') = 4%nat.
Proof.
  eexists. split; [reflexivity |].
  match goal with
  | |- context [db ?w'] =>
      destruct (db_upsert_lxmf_message_frame
                  Sample.delivered Sample.conversation w' eq_refl)
        as (Hframe & Hlength)
  end.
  split; [apply Hframe; discriminate | exact Hlength].
Defined.

Lemma for_each_upsert_unique (msgs : list LXMF.LXMessage) : forall w w',
  unique_hashes (db w) ->
  for_each msgs db_upsert_lxmf_message w = (Return tt, w') ->
  unique_hashes (db w').
Proof.
  induction msgs as [| m msgs IH]; intros w w' Hu Hrun.
  - injection Hrun as <-. exact Hu.
  - cbn [for_each] in Hrun.
    apply bind_returns in Hrun as ([] & w1 & Hm & Hrest).
    apply (IH w1 w'); [| exact Hrest].
    apply db_upsert_lxmf_message_returns in Hm as (d & _ & ->).
    cbn [db set_db]. now apply upsert_unique.
Qed.

Lemma for_each_upsert_frame h (msgs : list LXMF.LXMessage) : forall w w',
  (forall m, In m msgs -> LXMF.hash m <> h) ->
  for_each msgs db_upsert_lxmf_message w = (Return tt, w') ->
  filter (database.has_hash (Py.hex h)) (db w')
  = filter (database.has_hash (Py.hex h)) (db w).
Proof.
  induction msgs as [| m msgs IH]; intros w w' Hne Hrun.
  - now injection Hrun as <-.
  - cbn [for_each] in Hrun.
    apply bind_returns in Hrun as ([] & w1 & Hm & Hrest).
    rewrite (IH w1 w'); [| intros x Hx; apply Hne; now right | exact Hrest].
    apply db_upsert_lxmf_message_returns in Hm as (d & Hd & ->).
    destruct (convert_lxmf_message_to_dict_returns _ _ Hd) as (Hh & _).
    cbn [db set_db]. apply upsert_frame. cbn [values database.v_hash].
    rewrite Hh. intros Heq. apply hex_injective in Heq.
    apply (Hne m); [now left | now symmetry].
Qed.

(** X10. After a run of upserts, whatever hashes they carry, the row of a
    hash holds the state, the progress and the other supplied values of the
    last message of the run that carried this hash: later upserts of other
    hashes do not disturb it, and there is one such row. *)
Theorem db_upsert_lxmf_message_last_wins
  (earlier later : list LXMF.LXMessage) (m : LXMF.LXMessage) (w w' : World) :
  unique_hashes (db w) ->
  (forall m', In m' later -> LXMF.hash m' <> LXMF.hash m) ->
  for_each (earlier ++ m :: later) db_upsert_lxmf_message w
  = (Return tt, w') ->
  exists d row,
    convert_lxmf_message_to_dict m = Return d
    /\ filter (database.has_hash (Py.hex (LXMF.hash m))) (db w') = [row]
    /\ unique_hashes (db w')
    /\ database.state row = d_state d
    /\ database.progress row = d_progress d
    /\ database.title row = d_title d
    /\ database.content row = d_content d
    /\ database.fields row = d_fields d
    /\ database.timestamp row = d_timestamp d.
Proof.
  intros Hunique Hlater Hrun.
  rewrite for_each_app in Hrun.
  apply bind_returns in Hrun as ([] & w1 & Hearlier & Hrun).
  cbn [for_each] in Hrun.
  apply bind_returns in Hrun as ([] & w2 & Hm & Hrest).
  pose proof (for_each_upsert_unique _ _ _ Hunique Hearlier) as Hu1.
  assert (Hu2 : unique_hashes (db w2)).
  { apply (for_each_upsert_unique [m] w1 w2 Hu1).
    cbn [for_each]. unfold bind. now rewrite Hm. }
  pose proof (for_each_upsert_unique _ _ _ Hu2 Hrest) as Hu'.
  rewrite (for_each_upsert_frame _ _ _ _ Hlater Hrest).
  apply db_upsert_lxmf_message_returns in Hm as (d & Hd & ->).
  destruct (convert_lxmf_message_to_dict_returns _ _ Hd) as (Hh & _).
  destruct (upsert_row (datetime_now w1) (values d (d_fields d))
              (datetime_now w1) (db w1) Hu1)
    as (row & Hrow & Hold & Hnew).
  cbn [values database.v_hash] in Hrow, Hold, Hnew. rewrite Hh in Hrow.
  exists d, row. split; [exact Hd |]. split; [exact Hrow |].
  split; [exact Hu' |].
  destruct (existsb (database.has_hash (d_hash d)) (db w1)).
  - destruct (Hold eq_refl) as (old & _ & ->). repeat split.
  - rewrite (Hnew eq_refl). repeat split.
Qed.

Lemma db_upsert_lxmf_message_last_wins_witness :
  exists w' row,
    for_each [Sample.sending; Sample.delivered; Sample.note x02 x0c x0d "x"]
      db_upsert_lxmf_message Sample.fresh = (Return tt, w')
    /\ filter (database.has_hash "abcd") (db w') = [row]
    /\ database.state row = "delivered".
Proof.
  eexists. 
  edestruct (db_upsert_lxmf_message_last_wins
               [Sample.sending] [Sample.note x02 x0c x0d "x"]
               Sample.delivered Sample.fresh)
    as (d & row & Hd & Hrow & _ & Hstate & _).
  - constructor.
  - intros m' [<- | []]. discriminate.
  - reflexivity.
  - exists row. split; [reflexivity |]. split; [exact Hrow |].
    rewrite Hstate. injection Hd as <-. reflexivity.
Defined.

(** ** The query, continued *)

Lemma between_symmetric a b row :
  database.between a b row = database.between b a row.
Proof.
  unfold database.between.
  destruct (String.eqb (database.source_hash row) a),
    (String.eqb (database.destination_hash row) b),
    (String.eqb (database.destination_hash row) a),
    (String.eqb (database.source_hash row) b); reflexivity.
Qed.

(** X11. The query does not tell source from destination: asking for the
    messages between A and B and asking for those between B and A give the
    same rows in the same order, and so the same response. *)
Theorem api_v1_lxmf_messages_symmetric (a b : string) (w : World) :
  database.select_between a b (db w) = database.select_between b a (db w)
  /\ fst (api_v1_lxmf_messages
            [("source_hash", a); ("destination_hash", b)] w)
     = fst (api_v1_lxmf_messages
              [("source_hash", b); ("destination_hash", a)] w).
Proof.
  assert (Hselect : database.select_between a b (db w)
                    = database.select_between b a (db w)).
  { unfold database.select_between. f_equal. apply filter_ext.
    intros row. apply between_symmetric. }
  split; [exact Hselect |].
  unfold api_v1_lxmf_messages, select_lxmf_messages, bind, ret.
  cbn [lookup]. simpl. now rewrite Hselect.
Qed.

(** X12. The query route never raises and never writes: whatever the
    parameters, it returns a response with status 200 or 422, the status is
    200 exactly when both parameters are given, and the world is as before
    except that a query that ran is recorded as one select. *)
Theorem api_v1_lxmf_messages_read_only
  (query : list (string * string)) (w : World) :
  exists response w',
    api_v1_lxmf_messages query w = (Return response, w')
    /\ (status response = 200 \/ status response = 422)
    /\ (status response = 200
        <-> lookup query "source_hash" <> None
            /\ lookup query "destination_hash" <> None)
    /\ (w' = w \/ exists a b, w' = set_db (db w) (database.SELECT a b) w)
    /\ db w' = db w /\ wire w' = wire w
    /\ websocket_clients w' = websocket_clients w.
Proof.
  unfold api_v1_lxmf_messages.
  destruct (lookup query "source_hash") as [a |].
  - destruct (lookup query "destination_hash") as [b |].
    + eexists _, _. split; [reflexivity |]. cbn.
      split; [now left |]. split; [split; [intros _; split |]; congruence |].
      split; [right; now exists a, b |]. repeat split.
    + eexists _, _. split; [reflexivity |]. cbn.
      split; [now right |]. split; [split; [discriminate | intros []; congruence] |].
      split; [now left |]. repeat split.
  - eexists _, _. split; [reflexivity |]. cbn.
    split; [now right |]. split; [split; [discriminate | intros []; congruence] |].
    split; [now left |]. repeat split.
Qed.

(** ** Snapshots and announces *)

Lemma bind_ret {A B} (a : A) (k : A -> M B) : bind (ret a) k = k a.
Proof. reflexivity. Qed.

Lemma known_peers_serializable (l : list (Py.bytes * RNS.KnownDestination)) :
  forallb json_serializable (map known_peer l) = true.
Proof.
  induction l as [| [h k] l IH]; [reflexivity |].
  cbn [map forallb]. rewrite IH.
  unfold known_peer. cbn.
  now destruct (convert_app_data_to_string (RNS.app_data k)).
Qed.

(** X13. The snapshot of the known peers can always be serialised, whatever
    labels the peers have announced: sending it is the broadcast of the
    event with one entry for each known destination, in their order, and it
    raises only when a viewer refuses the frame.  With a display name that
    is a [str] the same holds for the configuration. *)
Theorem snapshots_always_serialise (w : World) :
  send_known_peers_to_websocket_clients w
  = websocket_broadcast (known_peers_event w) w
  /\ subscript (known_peers_event w) "known_peers"
     = Return (PyList (map known_peer (known_destinations w)))
  /\ (forall s, display_name w = PyStr s ->
        send_config_to_websocket_clients w
        = websocket_broadcast (config_event w) w)
  /\ (all_open w ->
      send_known_peers_to_websocket_clients w
      = (Return tt,
         set_wire (wire w ++ frames_to (websocket_clients w)
                             (known_peers_event w)) w)).
Proof.
  assert (Hpeers : send_known_peers_to_websocket_clients w
                   = websocket_broadcast (known_peers_event w) w).
  { unfold send_known_peers_to_websocket_clients, bind, gets, lift, json_dumps.
    unfold known_peers_event at 1. cbn [json_serializable forallb].
    now rewrite known_peers_serializable. }
  split; [exact Hpeers |]. split; [reflexivity |]. split.
  - intros s Hname.
    unfold send_config_to_websocket_clients, bind, gets, lift, json_dumps.
    unfold config_event at 1. rewrite Hname. reflexivity.
  - intros Hopen. rewrite Hpeers. now apply websocket_broadcast_open.
Qed.

(** X14. An announce without a label, or with a label that is UTF-8, reaches
    every registered viewer when none refuses it: each gets one announce
    event with the hexadecimal address, the decoded label or null, and the
    time of the receipt; the handler returns. *)
Theorem announce_handler_delivers
  (destination_hash : Py.bytes) (announced_identity : RNS.Identity)
  (app_data : option Py.bytes) (w : World) :
  all_open w ->
  (forall label, app_data = Some label -> Py.decode_utf8 label <> None) ->
  announce_handler destination_hash announced_identity app_data w
  = (Return tt,
     set_wire
       (wire w
        ++ frames_to (websocket_clients w)
             (announce_event destination_hash
                (convert_app_data_to_string app_data) (time_time w)))
       (set_network
          (network w
           ++ [RNS.log ("Received an announce from "
                        ++ RNS.prettyhexrep destination_hash)])
          w)).
Proof.
  intros Hopen Hlabel.
  set (logged := set_network
                   (network w
                    ++ [RNS.log ("Received an announce from "
                                 ++ RNS.prettyhexrep destination_hash)]) w).
  assert (Hrun : forall parsed,
             (let* now := gets time_time in
              let* data :=
                lift (json_dumps
                        (announce_event destination_hash parsed now)) in
              websocket_broadcast data) logged
             = (Return tt,
                set_wire
                  (wire w
                   ++ frames_to (websocket_clients w)
                        (announce_event destination_hash parsed (time_time w)))
                  logged)).
  { intros parsed. unfold bind at 1, gets. unfold bind at 1, lift, json_dumps.
    replace (json_serializable
               (announce_event destination_hash parsed (time_time logged)))
      with true by now destruct parsed.
    exact (websocket_broadcast_open _ logged Hopen). }
  unfold announce_handler, LXMFAnnounceHandler.received_announce, try_except,
    on_lxmf_announce_received.
  unfold bind at 1, call, modify. fold logged.
  destruct app_data as [label |].
  - specialize (Hlabel label eq_refl).
    unfold convert_app_data_to_string, decode.
    destruct (Py.decode_utf8 label) as [s |]; [| contradiction].
    rewrite bind_lift, bind_ret. now rewrite Hrun.
  - rewrite bind_ret. now rewrite Hrun.
Qed.

Lemma announce_handler_delivers_witness :
  wire (snd (announce_handler [x12; x34] Sample.somebody
               (Some (Py.encode_utf8 "Alice")) Sample.acquainted))
  = frames_to [1; 2]%nat
      (announce_event [x12; x34] (Some "Alice") 1710000000).
Proof.
  rewrite (announce_handler_delivers [x12; x34] Sample.somebody
             (Some (Py.encode_utf8 "Alice")) Sample.acquainted).
  - reflexivity.
  - intros c _. reflexivity.
  - intros label [= <-]. discriminate.
Defined.

(** ** Sending a message *)

Lemma bind_gets {A B} (f : World -> A) (k : A -> M B) (w : World) :
  bind (gets f) k w = k (f w) w.
Proof. reflexivity. Qed.

(** what [send_message] does inside its guard once the recipient is known
    and the router has packed the message *)
Lemma send_message_handoff (m : LXMF.LXMessage) (d : MessageDict) (w : World) :
  convert_lxmf_message_to_dict m = Return d ->
  json_serializable (d_fields d) = true ->
  let handed := set_network (network w ++ [RNS.handle_outbound m]) w in
  let stored :=
    set_db (database.upsert (datetime_now w) (values d (d_fields d))
              (datetime_now w) (db w))
           (database.UPSERT (d_hash d)) handed in
  (call (RNS.handle_outbound m) ;;
   db_upsert_lxmf_message m ;;
   let* d' := lift (convert_lxmf_message_to_dict m) in
   let* data :=
     lift (json_dumps (message_event "lxmf_outbound_message_created" d')) in
   websocket_broadcast data) w
  = websocket_broadcast (message_event "lxmf_outbound_message_created" d)
      stored.
Proof.
  intros Hconvert Hjson handed stored.
  unfold bind at 1, call, modify. fold handed.
  unfold db_upsert_lxmf_message.
  unfold bind at 1. unfold bind at 1, lift. rewrite Hconvert.
  unfold bind at 1, json_dumps. rewrite Hjson.
  unfold bind at 1, gets. unfold execute_upsert, modify.
  cbn [values database.v_hash]. fold stored.
  unfold bind at 1. unfold bind at 1.
  now rewrite message_event_serializable, Hjson.
Qed.

(** X15. Sending never raises into the route that called it.  When the
    destination is not hexadecimal text, all that happens is that one line
    is printed. *)
Theorem send_message_guarded
  (outbound :
     Py.bytes -> RNS.Identity -> PyVal -> float -> Outcome LXMF.LXMessage)
  (destination_hash message_content : PyVal) (w : World) :
  (exists w',
      send_message outbound destination_hash message_content w
      = (Return tt, w'))
  /\ (forall e,
        fromhex destination_hash = Raise e ->
        send_message outbound destination_hash message_content w
        = (Return tt,
           set_stdout (stdout w ++ ["failed to send lxmf message"]) w)).
Proof.
  split.
  - unfold send_message.
    match goal with
    | |- context [try_except ?m ?h w] =>
        destruct (try_except_returns m h (fun e w => print_returns _ w) w)
          as ([] & w' & H)
    end.
    now exists w'.
  - intros e Hhex. unfold send_message, try_except.
    unfold bind at 1, lift. rewrite Hhex. reflexivity.
Qed.

(** X16. A message for a destination of which no identity is known is not
    sent: a path to the destination is requested and that is all; nothing
    is stored, no viewer is told, nothing is printed. *)
Theorem send_message_unknown_destination
  (outbound :
     Py.bytes -> RNS.Identity -> PyVal -> float -> Outcome LXMF.LXMessage)
  (destination_hash message_content : PyVal) (h : Py.bytes) (w : World) :
  fromhex destination_hash = Return h ->
  known (known_destinations w) h = None ->
  send_message outbound destination_hash message_content w
  = (Return tt, set_network (network w ++ [RNS.request_path h]) w).
Proof.
  intros Hhex Hunknown. unfold send_message, try_except.
  rewrite Hhex, bind_lift. unfold bind at 1, recall, gets.
  rewrite Hunknown. reflexivity.
Qed.

Lemma send_message_unknown_destination_witness :
  send_message Sample.pack (PyStr "12 34") (PyStr "hello") Sample.three_viewers
  = (Return tt,
     set_network [RNS.request_path [x12; x34]] Sample.three_viewers).
Proof.
  exact (send_message_unknown_destination Sample.pack (PyStr "12 34")
           (PyStr "hello") [x12; x34] Sample.three_viewers eq_refl eq_refl).
Defined.

(** X17. A message for a known destination, given by the hexadecimal text
    of its address, is handed to the router and then stored, whatever the
    viewers do; when no viewer refuses a frame, every registered viewer
    gets the event of its creation and nothing is printed. *)
Theorem send_message_outbound
  (outbound :
     Py.bytes -> RNS.Identity -> PyVal -> float -> Outcome LXMF.LXMessage)
  (h : Py.bytes) (message_content : PyVal) (k : RNS.KnownDestination)
  (m : LXMF.LXMessage) (d : MessageDict) (w : World) :
  known (known_destinations w) h = Some k ->
  outbound (lxmf_address_hash w) {| RNS.get_public_key := RNS.public_key k |}
    message_content (time_time w) = Return m ->
  convert_lxmf_message_to_dict m = Return d ->
  json_serializable (d_fields d) = true ->
  let handed := set_network (network w ++ [RNS.handle_outbound m]) w in
  let stored :=
    set_db (database.upsert (datetime_now w) (values d (d_fields d))
              (datetime_now w) (db w))
           (database.UPSERT (d_hash d)) handed in
  let w' := snd (send_message outbound (PyStr (Py.hex h)) message_content w) in
  network w' = network handed
  /\ db w' = db stored
  /\ (all_open w ->
      send_message outbound (PyStr (Py.hex h)) message_content w
      = (Return tt,
         set_wire (wire w ++ frames_to (websocket_clients w)
                             (message_event "lxmf_outbound_message_created" d))
           stored)).
Proof.
  intros Hknown Hpacked Hconvert Hjson handed stored.
  assert (Hrun : send_message outbound (PyStr (Py.hex h)) message_content w
                 = try_except
                     (websocket_broadcast
                        (message_event "lxmf_outbound_message_created" d))
                     (fun _ => print "failed to send lxmf message") stored).
  { unfold send_message, try_except.
    rewrite fromhex_hex, bind_lift. unfold recall.
    rewrite bind_gets. cbv beta. rewrite Hknown. cbv beta iota.
    rewrite !bind_gets. cbv beta. rewrite Hpacked, bind_lift.
    now rewrite (send_message_handoff m d w Hconvert Hjson). }
  cbv zeta. rewrite Hrun. unfold try_except.
  pose proof (websocket_broadcast_only_writes
                (message_event "lxmf_outbound_message_created" d) stored)
    as Hwrites.
  destruct (websocket_broadcast
              (message_event "lxmf_outbound_message_created" d) stored)
    as [[[] | e] w2] eqn:Hsent; cbn [snd] in *.
  - split; [now rewrite Hwrites |]. split; [now rewrite Hwrites |].
    intros Hopen.
    rewrite (websocket_broadcast_open _ stored Hopen) in Hsent.
    injection Hsent as <-. reflexivity.
  - split; [simpl; now rewrite Hwrites |].
    split; [simpl; now rewrite Hwrites |].
    intros Hopen.
    rewrite (websocket_broadcast_open _ stored Hopen) in Hsent. discriminate.
Qed.

Lemma send_message_outbound_witness :
  exists w' row,
    send_message Sample.pack (PyStr "1234") (PyStr "hello") Sample.acquainted
    = (Return tt, w')
    /\ db w' = [row] /\ database.state row = "outbound"
    /\ database.content row = "hello"
    /\ List.length (wire w') = 2%nat.
Proof.
  eassert (Hm : Sample.pack (lxmf_address_hash Sample.acquainted)
                  {| RNS.get_public_key := [x77] |} (PyStr "hello")
                  (time_time Sample.acquainted) = Return _)
    by reflexivity.
  match type of Hm with
  | _ = Return ?m =>
      eassert (Hd : convert_lxmf_message_to_dict m = Return _)
        by (vm_compute; reflexivity)
  end.
  destruct (send_message_outbound Sample.pack [x12; x34] (PyStr "hello")
              _ _ _ Sample.acquainted eq_refl Hm Hd eq_refl)
    as (_ & _ & Hrun).
  eexists. eexists. split.
  - apply Hrun. intros c _. reflexivity.
  - repeat split.
Defined.

(** ** The frames of a viewer *)

Lemma on_frame_returns client_send outbound c msg (w : World) :
  exists w', on_frame client_send outbound c msg w = (Return tt, w').
Proof.
  destruct msg as [loaded | |]; cbn [on_frame].
  - match goal with
    | |- context [try_except ?m ?h w] =>
        destruct (try_except_returns m h
                    (fun e w => ex_intro _ tt (ex_intro _ _ eq_refl)) w)
          as ([] & w' & H)
    end.
    now exists w'.
  - now eexists.
  - now eexists.
Qed.

Lemma for_each_on_frame_returns client_send outbound c frames : forall w,
  exists w',
    for_each frames (on_frame client_send outbound c) w = (Return tt, w').
Proof.
  induction frames as [| msg frames IH]; intros w.
  - now exists w.
  - cbn [for_each]. unfold bind.
    destruct (on_frame_returns client_send outbound c msg w) as [w1 ->].
    apply IH.
Qed.

(** X18. Nothing that a viewer sends can end the loop over its frames: for
    every run of frames, text that is not JSON, JSON of any shape, error
    frames and other frames, the loop returns. *)
Theorem frames_never_raise
  (client_send : Session -> PyVal -> M unit)
  (outbound :
     Py.bytes -> RNS.Identity -> PyVal -> float -> Outcome LXMF.LXMessage)
  (c : Session) (frames : list WSMessage) (w : World) :
  exists w',
    for_each frames (on_frame client_send outbound c) w = (Return tt, w').
Proof. apply for_each_on_frame_returns. Qed.

(** X19. A text frame that is not JSON, and one whose JSON has no type, be
    it that the key is missing or that the value is no object, changes
    nothing: two lines are printed, the failure and the exception, and the
    loop goes on. *)
Theorem on_frame_malformed
  (client_send : Session -> PyVal -> M unit)
  (outbound :
     Py.bytes -> RNS.Identity -> PyVal -> float -> Outcome LXMF.LXMessage)
  (c : Session) (loaded : Outcome PyVal) (e : exn) (w : World) :
  loaded = Raise e
  \/ (exists data, loaded = Return data /\ subscript data "type" = Raise e) ->
  on_frame client_send outbound c (TEXT loaded) w
  = (print "failed to process client message" ;; print (str w e)) w.
Proof.
  intros [-> | (data & -> & Htype)]; cbn [on_frame]; unfold try_except.
  - reflexivity.
  - rewrite bind_lift. unfold on_websocket_data_received.
    unfold bind at 1, lift. rewrite Htype. reflexivity.
Qed.

Lemma on_frame_malformed_witness :
  on_frame Sample.no_send Sample.pack 1%nat
    (TEXT (Return (PyDict [("message", PyStr "hello")]))) Sample.three_viewers
  = (Return tt,
     set_stdout ["failed to process client message"; "KeyError"]
       Sample.three_viewers).
Proof.
  rewrite (on_frame_malformed Sample.no_send Sample.pack 1%nat
             (Return (PyDict [("message", PyStr "hello")])) KeyError
             Sample.three_viewers).
  - reflexivity.
  - right. eexists. split; reflexivity.
Defined.

(** X20. A registration that fails leaves the session in the registry: the
    route raises without reaching the removal, so the session stays
    registered though its route is gone. *)
Theorem ws_failed_registration_stays_registered
  (client_send : Session -> PyVal -> M unit)
  (outbound :
     Py.bytes -> RNS.Identity -> PyVal -> float -> Outcome LXMF.LXMessage)
  (c : Session) (frames : list WSMessage) (e : exn) (w w1 : World) :
  ws_register c w = (Raise e, w1) ->
  ws client_send outbound c frames w = (Raise e, w1)
  /\ websocket_clients w1 = websocket_clients w ++ [c].
Proof.
  intros Hreg. split.
  - unfold ws. now rewrite (bind_Raise _ _ _ _ _ Hreg).
  - pose proof (ws_register_registry c w) as H. now rewrite Hreg in H.
Qed.

Lemma ws_failed_registration_stays_registered_witness :
  exists w1,
    ws Sample.no_send Sample.pack 4%nat [OTHER] Sample.one_closing
    = (Raise ConnectionResetError, w1)
    /\ websocket_clients w1 = [1; 2; 3; 4]%nat.
Proof.
  eexists. 
  eapply (ws_failed_registration_stays_registered
            Sample.no_send Sample.pack 4%nat [OTHER] ConnectionResetError
            Sample.one_closing).
  reflexivity.
Defined.

(** ** The registry *)

Lemma keeps_ret {A} (a : A) : keeps_registry (ret a).
Proof. intros w. reflexivity. Qed.


Lemma keeps_lift {A} (o : Outcome A) : keeps_registry (lift o).
Proof. intros w. reflexivity. Qed.

Lemma keeps_gets {A} (f : World -> A) : keeps_registry (gets f).
Proof. intros w. reflexivity. Qed.

Lemma keeps_print line : keeps_registry (print line).
Proof. intros w. reflexivity. Qed.

Lemma keeps_call c : keeps_registry (call c).
Proof. intros w. reflexivity. Qed.

Lemma keeps_bind {A B} (m : M A) (k : A -> M B) :
  keeps_registry m -> (forall a, keeps_registry (k a)) ->
  keeps_registry (bind m k).
Proof.
  intros Hm Hk w. unfold bind. specialize (Hm w).
  destruct (m w) as [[a | e] w1]; cbn [snd] in *; [| exact Hm].
  now rewrite Hk.
Qed.

Lemma keeps_try_except {A} (m : M A) (handler : exn -> M A) :
  keeps_registry m -> (forall e, keeps_registry (handler e)) ->
  keeps_registry (try_except m handler).
Proof.
  intros Hm Hh w. unfold try_except. specialize (Hm w).
  destruct (m w) as [[a | e] w1]; cbn [snd] in *; [exact Hm |].
  now rewrite Hh.
Qed.


Lemma keeps_websocket_broadcast data : keeps_registry (websocket_broadcast data).
Proof.
  intros w. now rewrite (websocket_broadcast_only_writes data w).
Qed.


Lemma keeps_db_upsert_lxmf_message m :
  keeps_registry (db_upsert_lxmf_message m).
Proof.
  unfold db_upsert_lxmf_message.
  apply keeps_bind; [apply keeps_lift | intros d].
  apply keeps_bind; [apply keeps_lift | intros f].
  apply keeps_bind; [apply keeps_gets | intros t].
  intros w. reflexivity.
Qed.

Lemma keeps_save v : keeps_registry (save v).
Proof.
  intros w. unfold save.
  now destruct (database.insert (datetime_now w) v (db w)).
Qed.


Lemma keeps_message_broadcast type m :
  keeps_registry
    (let* d := lift (convert_lxmf_message_to_dict m) in
     let* data := lift (json_dumps (message_event type d)) in
     websocket_broadcast data).
Proof.
  apply keeps_bind; [apply keeps_lift | intros d].
  apply keeps_bind; [apply keeps_lift | intros data].
  apply keeps_websocket_broadcast.
Qed.

Lemma keeps_on_lxmf_delivery m : keeps_registry (on_lxmf_delivery m).
Proof.
  unfold on_lxmf_delivery.
  apply keeps_try_except.
  2: { intros e. apply keeps_bind; [apply keeps_gets | intros message].
       apply keeps_print. }
  apply keeps_bind; [apply keeps_lift | intros d].
  apply keeps_bind; [apply keeps_lift | intros f].
  apply keeps_bind; [apply keeps_save | intros _].
  apply keeps_message_broadcast.
Qed.

Lemma keeps_on_lxmf_sending_state_updated m :
  keeps_registry (on_lxmf_sending_state_updated m).
Proof.
  unfold on_lxmf_sending_state_updated.
  apply keeps_bind; [apply keeps_db_upsert_lxmf_message | intros _].
  apply keeps_message_broadcast.
Qed.

Lemma keeps_announce_handler h identity app_data :
  keeps_registry (announce_handler h identity app_data).
Proof.
  unfold announce_handler, LXMFAnnounceHandler.received_announce.
  apply keeps_try_except; [| intros e; apply keeps_ret].
  unfold on_lxmf_announce_received.
  apply keeps_bind; [apply keeps_call | intros _].
  apply keeps_bind.
  - destruct app_data as [b |]; [| apply keeps_ret].
    apply keeps_bind; [apply keeps_lift | intros s; apply keeps_ret].
  - intros parsed.
    apply keeps_bind; [apply keeps_gets | intros now].
    apply keeps_bind; [apply keeps_lift | intros data].
    apply keeps_websocket_broadcast.
Qed.




Section RegistryOfTheRoute.

Variable client_send : Session -> PyVal -> M unit.
Variable outbound :
  Py.bytes -> RNS.Identity -> PyVal -> float -> Outcome LXMF.LXMessage.
Hypothesis keeps_client_send :
  forall client data, keeps_registry (client_send client data).






End RegistryOfTheRoute.


(** X22. No callback of the network layer registers or removes a viewer:
    after an inbound delivery, a state update, a failure or an announce,
    whatever it carried and however it ended, the registry is what it
    was. *)
Theorem callbacks_keep_registry (w : World) :
  (forall m, websocket_clients (snd (on_lxmf_delivery m w))
             = websocket_clients w)
  /\ (forall m, websocket_clients (snd (on_lxmf_sending_state_updated m w))
                = websocket_clients w)
  /\ (forall m, websocket_clients (snd (on_lxmf_sending_failed m w))
                = websocket_clients w)
  /\ (forall h identity app_data,
        websocket_clients (snd (announce_handler h identity app_data w))
        = websocket_clients w).
Proof.
  repeat split; intros.
  - apply keeps_on_lxmf_delivery.
  - apply keeps_on_lxmf_sending_state_updated.
  - apply keeps_on_lxmf_sending_state_updated.
  - apply keeps_announce_handler.
Qed.

(** ** Setting the display name *)

(** X23. A viewer that sets a display name that is a [str] and not empty
    changes the name, has it printed and saved to the configuration file,
    and, when no viewer refuses the frame, every registered viewer gets the
    configuration with the new name. *)
Theorem config_set_renames
  (client_send : Session -> PyVal -> M unit)
  (outbound :
     Py.bytes -> RNS.Identity -> PyVal -> float -> Outcome LXMF.LXMessage)
  (client : Session) (data : PyVal) (config : list (string * PyVal))
  (name : string) (w : World) :
  subscript data "type" = Return (PyStr "config.set") ->
  subscript data "config" = Return (PyDict config) ->
  lookup config "display_name" = Some (PyStr name) ->
  name <> "" ->
  config_file_writable w = true ->
  all_open w ->
  let renamed := set_display_name (PyStr name) w in
  on_websocket_data_received client_send outbound client data w
  = (Return tt,
     set_wire (wire w ++ frames_to (websocket_clients w) (config_event renamed))
       (set_config_file (PyDict [("display_name", PyStr name)])
          (set_stdout
             (stdout w ++ [("updated display name to: " ++ name)%string])
             renamed))).
Proof.
  intros Htype Hconfig Hname Hnot_empty Hwritable Hopen renamed.
  unfold on_websocket_data_received. rewrite Htype, bind_lift.
  cbv beta iota. unfold config_set.
  rewrite Hconfig, bind_lift. cbn [contains]. rewrite Hname, bind_lift.
  cbv beta iota. cbn [subscript]. rewrite Hname.
  unfold bind at 2. unfold lift at 1.
  replace (not_empty_str (PyStr name)) with true
    by (destruct name; [contradiction | reflexivity]).
  unfold bind at 1. unfold bind at 1, modify. fold renamed.
  cbn [concat]. rewrite bind_lift. unfold print at 1, modify.
  unfold bind at 1, save_config.
  change (config_file_writable (set_stdout _ renamed))
    with (config_file_writable w).
  rewrite Hwritable. cbn [andb json_serializable forallb display_name
                          set_stdout set_display_name renamed].
  unfold send_config_to_websocket_clients.
  rewrite bind_gets. cbv beta. unfold bind at 1, lift, json_dumps.
  match goal with
  | |- context [json_serializable ?event] =>
      change (json_serializable event) with true
  end.
  cbv iota.
  match goal with
  | |- websocket_broadcast ?ev ?w1 = _ =>
      exact (websocket_broadcast_open ev w1 Hopen)
  end.
Qed.

Lemma config_set_renames_witness :
  exists w',
    on_websocket_data_received Sample.no_send Sample.pack 1%nat
      (PyDict [("type", PyStr "config.set");
               ("config", PyDict [("display_name", PyStr "Bob")])])
      Sample.three_viewers = (Return tt, w')
    /\ display_name w' = PyStr "Bob"
    /\ config_file w' = PyDict [("display_name", PyStr "Bob")]
    /\ stdout w' = ["updated display name to: Bob"]
    /\ List.length (wire w') = 3%nat.
Proof.
  eexists. split.
  - apply (config_set_renames Sample.no_send Sample.pack 1%nat
             (PyDict [("type", PyStr "config.set");
                      ("config", PyDict [("display_name", PyStr "Bob")])])
             [("display_name", PyStr "Bob")] "Bob" Sample.three_viewers);
      try reflexivity.
    + discriminate.
    + intros c _. reflexivity.
  - repeat split.
Defined.

(** X24. A viewer that sets a display name that is not a [str] leaves the
    process with that value as its display name and gets nothing else: the
    printing raises after the assignment, so the name is neither saved nor
    sent to any viewer. *)
Theorem config_set_not_a_str
  (client_send : Session -> PyVal -> M unit)
  (outbound :
     Py.bytes -> RNS.Identity -> PyVal -> float -> Outcome LXMF.LXMessage)
  (client : Session) (data : PyVal) (config : list (string * PyVal))
  (name : PyVal) (w : World) :
  subscript data "type" = Return (PyStr "config.set") ->
  subscript data "config" = Return (PyDict config) ->
  lookup config "display_name" = Some name ->
  (forall s, name <> PyStr s) ->
  on_websocket_data_received client_send outbound client data w
  = (Raise TypeError, set_display_name name w).
Proof.
  intros Htype Hconfig Hname Hnot_str.
  unfold on_websocket_data_received. rewrite Htype, bind_lift.
  cbv beta iota. unfold config_set.
  rewrite Hconfig, bind_lift. cbn [contains]. rewrite Hname, bind_lift.
  cbv beta iota. cbn [subscript]. rewrite Hname.
  unfold bind at 2. unfold lift at 1.
  destruct name as [| b | n | x | s | b | l | d];
    try reflexivity.
  now destruct (Hnot_str s).
Qed.

Lemma config_set_not_a_str_witness :
  on_frame Sample.no_send Sample.pack 1%nat
    (TEXT (Return (PyDict [("type", PyStr "config.set");
                           ("config", PyDict [("display_name", PyInt 5)])])))
    Sample.three_viewers
  = (Return tt,
     set_stdout ["failed to process client message"; "TypeError"]
       (set_display_name (PyInt 5) Sample.three_viewers)).
Proof.
  cbn [on_frame]. unfold try_except. rewrite bind_lift.
  rewrite (config_set_not_a_str Sample.no_send Sample.pack 1%nat
             (PyDict [("type", PyStr "config.set");
                      ("config", PyDict [("display_name", PyInt 5)])])
             [("display_name", PyInt 5)] (PyInt 5) Sample.three_viewers
             eq_refl eq_refl eq_refl).
  - reflexivity.
  - discriminate.
Defined.

(** ** Downloads, continued *)

(** X25. When the identity of the destination is known, a page or a file
    download asks for a path and opens a link to the node of that identity,
    "nomadnetwork" and "node"; it calls none of its continuations, whatever
    they are, and returns. *)
Theorem download_opens_link
  (h : Py.bytes) (k : RNS.KnownDestination) (w : World) :
  known (known_destinations w) h = Some k ->
  let w' :=
    set_network
      ((network w ++ [RNS.request_path h])
       ++ [RNS.Link (RNS.public_key k) "nomadnetwork" "node"]) w in
  (forall page_path on_success on_failure on_progress timeout,
      exists self,
        NomadnetPageDownloader.init h page_path on_success on_failure
          on_progress timeout true w = (Return self, w'))
  /\ (forall file_path on_success on_failure on_progress timeout,
        exists self,
          NomadnetFileDownloader.init h file_path on_success on_failure
            on_progress timeout true w = (Return self, w')).
Proof.
  intros Hknown w'.
  assert (Hinit : forall path on_success on_failure on_progress timeout,
             exists self,
               NomadnetDownloader.init h path on_success on_failure
                 on_progress timeout true w = (Return self, w')).
  { intros. eexists. unfold NomadnetDownloader.init.
    unfold NomadnetDownloader.download.
    cbn [NomadnetDownloader.destination_hash NomadnetDownloader.app_name
         NomadnetDownloader.aspects].
    unfold bind at 1. unfold bind at 1, call, modify.
    unfold recall. rewrite bind_gets. cbv beta.
    cbn [known_destinations set_network]. rewrite Hknown. reflexivity. }
  split; intros; apply Hinit.
Qed.

Lemma download_opens_link_witness :
  exists self,
    NomadnetPageDownloader.init [x12; x34] (PyStr "/page/index.mu")
      (fun _ => print "success") (fun _ => print "failure")
      (fun _ => print "progress") None true Sample.acquainted
    = (Return self,
       set_network [RNS.request_path [x12; x34];
                    RNS.Link [x77] "nomadnetwork" "node"] Sample.acquainted).
Proof.
  destruct (download_opens_link [x12; x34] _ Sample.acquainted eq_refl)
    as (Hpage & _).
  apply Hpage.
Defined.

(** X26. The response to a page request is printed as received and then
    decoded: when it is UTF-8, the success continuation gets the text;
    when it is not, the decoding raises and neither the success nor the
    failure continuation is called. *)
Theorem page_response_decoded
  (self : NomadnetDownloader.t) (on_page_download_success : string -> M unit)
  (response : Py.bytes) (w : World) :
  NomadnetDownloader.on_download_success self
  = NomadnetPageDownloader.on_download_success on_page_download_success ->
  let received := set_stdout (stdout w ++ ["file_received"]) w in
  NomadnetDownloader.on_response self (PyBytes response) w
  = match Py.decode_utf8 response with
    | Some text => on_page_download_success text received
    | None => (Raise UnicodeDecodeError, received)
    end.
Proof.
  intros Hself received.
  unfold NomadnetDownloader.on_response. rewrite Hself.
  unfold bind at 1, print, modify. fold received.
  unfold NomadnetPageDownloader.on_download_success, decode.
  destruct (Py.decode_utf8 response) as [text |]; reflexivity.
Qed.

Lemma page_response_decoded_witness :
  NomadnetDownloader.on_response Sample.page_reader (PyBytes [xff])
    Sample.fresh
  = (Raise UnicodeDecodeError, set_stdout ["file_received"] Sample.fresh)
  /\ NomadnetDownloader.on_response Sample.page_reader
       (PyBytes (Py.encode_utf8 "hello")) Sample.fresh
     = (Return tt,
        set_stdout ["file_received"; "page: hello"] Sample.fresh).
Proof.
  split.
  - rewrite (page_response_decoded Sample.page_reader
               (fun text => print ("page: " ++ text)%string)
               [xff] Sample.fresh eq_refl).
    reflexivity.
  - rewrite (page_response_decoded Sample.page_reader
               (fun text => print ("page: " ++ text)%string)
               (Py.encode_utf8 "hello") Sample.fresh eq_refl).
    reflexivity.
Defined.

(** ** The ledger, continued *)

Lemma keeps_ledger_ret {A} (a : A) : keeps_ledger (ret a).
Proof. intros w H. exact H. Qed.

Lemma keeps_ledger_lift {A} (o : Outcome A) : keeps_ledger (lift o).
Proof. intros w H. exact H. Qed.

Lemma keeps_ledger_gets {A} (f : World -> A) : keeps_ledger (gets f).
Proof. intros w H. exact H. Qed.

Lemma keeps_ledger_print line : keeps_ledger (print line).
Proof. intros w H. exact H. Qed.

Lemma keeps_ledger_call c : keeps_ledger (call c).
Proof. intros w H. exact H. Qed.

Lemma keeps_ledger_bind {A B} (m : M A) (k : A -> M B) :
  keeps_ledger m -> (forall a, keeps_ledger (k a)) -> keeps_ledger (bind m k).
Proof.
  intros Hm Hk w Hok. unfold bind. specialize (Hm w Hok).
  destruct (m w) as [[a | e] w1]; cbn [snd] in *; [| exact Hm].
  now apply Hk.
Qed.

Lemma keeps_ledger_try_except {A} (m : M A) (handler : exn -> M A) :
  keeps_ledger m -> (forall e, keeps_ledger (handler e)) ->
  keeps_ledger (try_except m handler).
Proof.
  intros Hm Hh w Hok. unfold try_except. specialize (Hm w Hok).
  destruct (m w) as [[a | e] w1]; cbn [snd] in *; [exact Hm |].
  now apply Hh.
Qed.

Lemma keeps_ledger_broadcast data : keeps_ledger (websocket_broadcast data).
Proof.
  intros w Hok.
  now rewrite (only_writes_db _ _ (websocket_broadcast_only_writes data w)).
Qed.

Lemma keeps_ledger_message_broadcast type m :
  keeps_ledger
    (let* d := lift (convert_lxmf_message_to_dict m) in
     let* data := lift (json_dumps (message_event type d)) in
     websocket_broadcast data).
Proof.
  apply keeps_ledger_bind; [apply keeps_ledger_lift | intros d].
  apply keeps_ledger_bind; [apply keeps_ledger_lift | intros data].
  apply keeps_ledger_broadcast.
Qed.

(** X27. Whatever reaches the program keeps the ledger well formed: after
    an inbound delivery, a state update, a failure, an announce, a message
    sent by a viewer or a query, whether it returned or raised, no two rows
    have the same hash and the rows are stored by rising id. *)
Theorem ledger_stays_well_formed (w : World) :
  ledger_ok (db w) ->
  (forall m, ledger_ok (db (snd (on_lxmf_delivery m w))))
  /\ (forall m, ledger_ok (db (snd (on_lxmf_sending_state_updated m w))))
  /\ (forall m, ledger_ok (db (snd (on_lxmf_sending_failed m w))))
  /\ (forall h identity app_data,
        db (snd (announce_handler h identity app_data w)) = db w)
  /\ (forall outbound destination_hash message_content,
        ledger_ok
          (db (snd (send_message outbound destination_hash message_content
                      w))))
  /\ (forall query, db (snd (api_v1_lxmf_messages query w)) = db w).
Proof.
  intros Hok.
  split; [intros m; now apply on_lxmf_delivery_ledger |].
  split; [intros m; now apply on_lxmf_sending_state_updated_ledger |].
  split; [intros m; now apply on_lxmf_sending_state_updated_ledger |].
  split; [| split].
  - intros h identity app_data.
    unfold announce_handler, LXMFAnnounceHandler.received_announce,
      try_except, on_lxmf_announce_received.
    unfold bind at 1, call, modify.
    match goal with
    | |- context [bind ?m ?k ?w1] =>
        assert (Hparsed : exists r, m w1 = (r, w1))
    end.
    { destruct app_data as [b |]; [| now eexists].
      unfold bind, lift. destruct (decode b); now eexists. }
    destruct Hparsed as [r Hparsed]. unfold bind at 1. rewrite Hparsed.
    destruct r as [parsed | e]; [| reflexivity].
    rewrite bind_gets. cbv beta. unfold bind at 1, lift, json_dumps.
    match goal with
    | |- context [json_serializable ?ev] => destruct (json_serializable ev)
    end; [| reflexivity].
    match goal with
    | |- context [websocket_broadcast ?ev ?w1] =>
        pose proof (only_writes_db _ _ (websocket_broadcast_only_writes ev w1))
          as Hdb;
        destruct (websocket_broadcast ev w1) as [[[] | e] w2]
    end; exact Hdb.
  - intros outbound destination_hash message_content.
    revert w Hok. fold (keeps_ledger
                          (send_message outbound destination_hash
                             message_content)).
    unfold send_message.
    apply keeps_ledger_try_except; [| intros e; apply keeps_ledger_print].
    apply keeps_ledger_bind; [apply keeps_ledger_lift | intros h].
    apply keeps_ledger_bind; [apply keeps_ledger_gets | intros identity].
    destruct identity as [identity |]; [| apply keeps_ledger_call].
    apply keeps_ledger_bind; [apply keeps_ledger_gets | intros source].
    apply keeps_ledger_bind; [apply keeps_ledger_gets | intros now].
    apply keeps_ledger_bind; [apply keeps_ledger_lift | intros m].
    apply keeps_ledger_bind; [apply keeps_ledger_call | intros _].
    apply keeps_ledger_bind; [| intros _; apply keeps_ledger_message_broadcast].
    intros w Hok. now apply db_upsert_lxmf_message_ledger.
  - intros query. unfold api_v1_lxmf_messages.
    destruct (lookup query "source_hash"); [| reflexivity].
    destruct (lookup query "destination_hash"); reflexivity.
Qed.

Lemma ledger_stays_well_formed_witness :
  ledger_ok (db (snd (on_lxmf_delivery Sample.delivered Sample.conversation)))
  /\ List.length
       (db (snd (on_lxmf_delivery Sample.delivered Sample.conversation)))
     = 4%nat.
Proof.
  destruct (ledger_stays_well_formed Sample.conversation) as (Hdelivery & _).
  - split.
    + unfold unique_hashes.
      replace (map database.hash (db Sample.conversation))
        with ["01"; "02"; "03"] by (vm_compute; reflexivity).
      repeat constructor; simpl; intuition discriminate.
    + unfold rising_ids.
      set (t := db Sample.conversation). vm_compute in t. subst t.
      repeat constructor.
  - split; [apply Hdelivery | vm_compute; reflexivity].
Defined.
